(** * dual-db-chatbot: the React front end, embedded and verified

    The development follows the three source files of the front end:

    - [services/chatService.js]   -> [Module ChatService]
    - [components/ResultsDisplay.js] -> [Module ResultsDisplay]
    - [components/ChatInterface.js]  -> [Module ChatInterface]

    JavaScript values are embedded shallowly.  A JS string is a [string]
    whose characters are its code units (those below 256); a JS number
    is a binary64 [float]; an object whose key order is observable ([Object.keys],
    [Set] iteration) is an association list in that order; an absent
    property ([undefined]) is [None].  Component state held by
    [useState] is an explicit record and every handler is a function on
    that record.  What the components call in the JS runtime and cannot
    be computed from the program text (number and date formatting, JSON
    serialisation) is the interface [Host]. *)

From Stdlib Require Import String Ascii List Bool Arith ZArith Lia.
From Stdlib Require Import DecimalString.
From Stdlib Require Import Floats.PrimFloat Floats.SpecFloat Floats.FloatOps.
Import ListNotations.

Set Warnings "-register-all".
Local Open Scope string_scope.
Local Open Scope list_scope.

(* ================================================================== *)
(** * The fragment of the JS runtime the components use               *)
(* ================================================================== *)

Module JS.

(** ** Strings *)

(** [s.startsWith(p)] *)
Definition startsWith (s p : string) : bool := String.prefix p s.

(** [s.includes(sub)]: [sub] occurs at some position of [s]. *)
Fixpoint includes (s sub : string) : bool :=
  if String.prefix sub s then true
  else match s with
       | EmptyString => false
       | String _ rest => includes rest sub
       end.

(** [s.substring(0, n)]: the first [n] code units, fewer if [s] is
    shorter. *)
Definition substring0 (n : nat) (s : string) : string :=
  String.substring 0 n s.

(** [s.slice(1)], [s.charAt(0)] *)
Definition slice1 (s : string) : string :=
  match s with
  | EmptyString => EmptyString
  | String _ rest => rest
  end.

Definition charAt0 (s : string) : string :=
  match s with
  | EmptyString => EmptyString
  | String c _ => String c EmptyString
  end.

(** [xs.join(sep)] *)
Definition join (sep : string) (xs : list string) : string :=
  String.concat sep xs.

(** Truthiness of a string: only [''] is falsy. *)
Definition truthy_string (s : string) : bool :=
  match s with
  | EmptyString => false
  | String _ _ => true
  end.

(** ECMAScript WhiteSpace and LineTerminator code units below 256:
    TAB, LF, VT, FF, CR, SP and NBSP. *)
Definition isWhiteSpace (c : ascii) : bool :=
  let n := nat_of_ascii c in
  (((9 <=? n) && (n <=? 13)) || (n =? 32) || (n =? 160))%nat.

Fixpoint trimStart (s : string) : string :=
  match s with
  | EmptyString => EmptyString
  | String c rest => if isWhiteSpace c then trimStart rest else s
  end.

(** Drops the trailing white space: a character is kept when it is
    not white space or when something is kept after it. *)
Fixpoint trimEnd (s : string) : string :=
  match s with
  | EmptyString => EmptyString
  | String c rest =>
      match trimEnd rest with
      | EmptyString => if isWhiteSpace c then EmptyString
                       else String c EmptyString
      | kept => String c kept
      end
  end.

(** [s.trim()] *)
Definition trim (s : string) : string := trimEnd (trimStart s).

(** The regular-expression class [\w] is [[A-Za-z0-9_]]. *)
Definition isWordChar (c : ascii) : bool :=
  let n := nat_of_ascii c in
  (((48 <=? n) && (n <=? 57)) || ((65 <=? n) && (n <=? 90))
   || (n =? 95) || ((97 <=? n) && (n <=? 122)))%nat.

(** [toUpperCase] on one [\w] character: only [a-z] change. *)
Definition upcaseWordChar (c : ascii) : ascii :=
  let n := nat_of_ascii c in
  if ((97 <=? n) && (n <=? 122))%nat then ascii_of_nat (n - 32) else c.

(** [s.replace(/_/g, ' ')] *)
Fixpoint replaceUnderscores (s : string) : string :=
  match s with
  | EmptyString => EmptyString
  | String c rest =>
      String (if Ascii.eqb c "_"%char then " "%char else c)
             (replaceUnderscores rest)
  end.

(** [s.replace(/\b\w/g, l => l.toUpperCase())]: a word character is
    matched exactly when the character before it (if any) is not a
    word character.  [prevWord] tells whether it is. *)
Fixpoint capitalizeWordsFrom (prevWord : bool) (s : string) : string :=
  match s with
  | EmptyString => EmptyString
  | String c rest =>
      let w := isWordChar c in
      String (if w && negb prevWord then upcaseWordChar c else c)
             (capitalizeWordsFrom w rest)
  end.

Definition capitalizeWords (s : string) : string :=
  capitalizeWordsFrom false s.

(** Decimal text of an array length (a non-negative integer). *)
Fixpoint digitsFuel (fuel n : nat) (acc : string) : string :=
  match fuel with
  | O => acc
  | S fuel' =>
      let d := String (ascii_of_nat (48 + n mod 10)) acc in
      if (n <? 10)%nat then d else digitsFuel fuel' (n / 10) d
  end.

Definition lengthToString (n : nat) : string := digitsFuel (S n) n "".

(** ** Numbers *)

(** A number is falsy when it is [+0], [-0] or [NaN]. *)
Definition falsy_number (n : float) : bool :=
  PrimFloat.eqb n 0%float || negb (PrimFloat.eqb n n).

(** ** [Set] of strings

    A [Set] iterates in insertion order, so it is the list of its
    members in that order. *)
Definition StringSet := list string.

Definition Set_has (s : StringSet) (k : string) : bool :=
  existsb (String.eqb k) s.

(** [s.add(k)] appends [k] unless it is already a member. *)
Definition Set_add (s : StringSet) (k : string) : StringSet :=
  if Set_has s k then s else s ++ [k].

(** [Array.from(s)] *)
Definition Array_from (s : StringSet) : list string := s.

(** [xs.slice(0, n)] on an array *)
Definition slice0 {A} (n : nat) (xs : list A) : list A := firstn n xs.

(** ** Completions

    A statement either completes normally with a value or throws. *)
Definition exn := string.

Inductive completion (E A : Type) : Type :=
| Normal (a : A)
| Throw (e : E).
Arguments Normal {E A} a.
Arguments Throw {E A} e.

(** [try { body } catch { handler }] *)
Definition try_catch {E A} (body : completion E A) (handler : E -> A) : A :=
  match body with
  | Normal a => a
  | Throw e => handler e
  end.

End JS.


(* ================================================================== *)
(** * The payloads exchanged with the backend                         *)
(* ================================================================== *)

Module Payload.

(** An arbitrary JSON value, as [JSON.parse] delivers it.  The fields
    of an object are in [Object.keys] order. *)
Inductive json : Type :=
| JNull
| JBool (b : bool)
| JNum (n : float)
| JStr (s : string)
| JArr (elements : list json)
| JObj (fields : list (string * json)).

(** A primitive that is not [null]: a boolean, a number or a string. *)
Inductive prim : Type :=
| PBool (b : bool)
| PNum (n : float)
| PStr (s : string).

(** A cell of a result row: [null] or a primitive. *)
Inductive scalar : Type :=
| SNull
| SPrim (v : prim).

Definition SBool (b : bool) : scalar := SPrim (PBool b).
Definition SNum (n : float) : scalar := SPrim (PNum n).
Definition SStr (s : string) : scalar := SPrim (PStr s).

(** A result row, its own keys in [Object.keys] order. *)
Definition row := list (string * scalar).

(** [row[col]]: [None] is [undefined]. *)
Fixpoint getField (r : row) (col : string) : option scalar :=
  match r with
  | [] => None
  | (k, v) :: rest => if String.eqb k col then Some v else getField rest col
  end.

(** [Object.keys(row)] *)
Definition Object_keys (r : row) : list string := map fst r.

(** A string or a number: a scalar metric, a bucket key. *)
Inductive atom : Type :=
| AString (s : string)
| ANumber (n : float).

Module Bucket.
(** One [{key, count}] entry of a bucket-valued aggregation. *)
Record t := { key : atom; count : float }.
End Bucket.

(** The value of one metric of [data.aggregations[source]]: a scalar or
    an array of buckets. *)
Inductive metric : Type :=
| MetricValue (value : atom)
| MetricBuckets (buckets : list Bucket.t).

Record TimelineItem := {
  date : string;
  count : float;
  items : option (list json)
}.

(** [response.data]: every field is optional; [None] is an absent key. *)
Record ResultEnvelope := {
  total_results : option float;
  sources : option (list string);
  summary : option string;
  aggregations : option (list (string * list (string * metric)));
  results : option (list row);
  timeline : option (list TimelineItem);
  metadata : option (list (string * json))
}.

(** The names of the keys present in the envelope; the component only
    reads [Object.keys(data).length]. *)
Definition present {A} (name : string) (field : option A) : list string :=
  match field with
  | Some _ => [name]
  | None => []
  end.

Definition envelope_keys (d : ResultEnvelope) : list string :=
  present "total_results" (total_results d)
  ++ present "sources" (sources d)
  ++ present "summary" (summary d)
  ++ present "aggregations" (aggregations d)
  ++ present "results" (results d)
  ++ present "timeline" (timeline d)
  ++ present "metadata" (metadata d).

(** [obj[name]] on a JSON object *)
Fixpoint lookup (fields : list (string * json)) (name : string) : option json :=
  match fields with
  | [] => None
  | (k, v) :: rest => if String.eqb k name then Some v else lookup rest name
  end.

Record Routing := {
  use_elasticsearch : bool;
  use_postgresql : bool
}.

Record QueryInfo := {
  intent : option string;
  entities : option (list string);
  routing : option Routing
}.

(** The body of a successful [POST /chat]. *)
Record ChatResponse := {
  response : string;
  data : option ResultEnvelope;
  query_info : option QueryInfo;
  conversation_id : string
}.

End Payload.

(* ================================================================== *)
(** * The host interface                                              *)
(* ================================================================== *)

(** Built-ins whose result depends on the engine, the locale or the
    time zone.  [Date_parse] is [Date.parse]: [None] is [NaN]. *)
Class Host := {
  Number_toString : float -> string;
  Number_toLocaleString : float -> string;
  String_toUpperCase : string -> string;
  Date_parse : string -> option Z;
  Date_toLocaleDateString : Z -> string;
  JSON_stringify : Payload.json -> string;
  JSON_stringify_indent2 : Payload.ResultEnvelope -> string
}.

Module JSDate.

(** A [Date] object is its time value; [None] is the invalid date. *)
Definition Date := option Z.

Section WithHost.
Context {host : Host}.

(** [new Date(s)] never throws: an unparsable string gives the invalid
    date. *)
Definition new_Date (s : string) : Date := Date_parse s.

(** [d.toLocaleDateString()] answers ['Invalid Date'] for the invalid
    date and does not throw. *)
Definition toLocaleDateString (d : Date) : string :=
  match d with
  | None => "Invalid Date"
  | Some tv => Date_toLocaleDateString tv
  end.

End WithHost.
End JSDate.

(* ================================================================== *)
(** * services/chatService.js                                         *)
(* ================================================================== *)

Module ChatService.
Import Payload.

(** What axios rejects with: [error.code], [error.response?.status]
    and [error.message]. *)
Record AxiosError := {
  code : option string;
  response_status : option Z;
  message : string
}.

(** What a service method throws: an [Error] made by the interceptor,
    or the axios error itself, rethrown. *)
Inductive Thrown : Type :=
| NewError (msg : string)
| Original (error : AxiosError).

Definition Thrown_message (t : Thrown) : string :=
  match t with
  | NewError msg => msg
  | Original error => message error
  end.

(** The error taxonomy of the specification, as the values thrown. *)
Definition Unreachable : Thrown :=
  NewError "Unable to connect to the server. Please make sure the backend is running.".
Definition ServerError : Thrown :=
  NewError "Server error occurred. Please try again.".
Definition NotFound : Thrown :=
  NewError "API endpoint not found.".
Definition Unknown (error : AxiosError) : Thrown := Original error.

(** ** The console *)

Inductive LogArg : Type :=
| ArgString (s : string)
| ArgStatus (status : option Z)
| ArgThrown (t : Thrown).

Inductive LogEntry : Type :=
| console_log (label : string) (args : list LogArg)
| console_error (label : string) (args : list LogArg).

(** ** Computations that log and may throw *)

Definition IO (A : Type) : Type := list LogEntry * JS.completion Thrown A.

Definition ret {A} (a : A) : IO A := ([], JS.Normal a).

Definition throw {A} (t : Thrown) : IO A := ([], JS.Throw t).

Definition log (entry : LogEntry) : IO unit := ([entry], JS.Normal tt).

Definition bind {A B} (m : IO A) (k : A -> IO B) : IO B :=
  match m with
  | (out, JS.Normal a) => let (out', r) := k a in (out ++ out', r)
  | (out, JS.Throw t) => (out, JS.Throw t)
  end.

(** [try { m } catch (error) { handler(error) }] *)
Definition catch {A} (m : IO A) (handler : Thrown -> IO A) : IO A :=
  match m with
  | (out, JS.Normal a) => (out, JS.Normal a)
  | (out, JS.Throw t) => let (out', r) := handler t in (out ++ out', r)
  end.

Declare Scope io_scope.
Delimit Scope io_scope with io.
Notation "x <- m ;; k" := (bind m (fun x => k))
  (at level 61, m at next level, right associativity) : io_scope.
Notation "m ;; k" := (bind m (fun _ => k))
  (at level 61, right associativity) : io_scope.

(** ** The axios instance *)

Inductive Method := GET | POST.

(** [config.method?.toUpperCase()] *)
Definition Method_upper (m : Method) : string :=
  match m with
  | GET => "GET"
  | POST => "POST"
  end.

(** The body of [POST /chat] *)
Record ChatRequest := {
  req_message : string;
  req_conversation_id : string
}.

Record Config := {
  method : Method;
  url : string;
  body : option ChatRequest
}.

Definition timeout : Z := 30000.

Record AxiosResponse (A : Type) := {
  status : Z;
  payload : A
}.
Arguments status {A} _.
Arguments payload {A} _.

(** What the network did with one request: it answered, or axios
    rejected. *)
Definition Transport (A : Type) : Type := (AxiosResponse A + AxiosError)%type.

(** [error.code === 'ECONNREFUSED'] *)
Definition code_is (error : AxiosError) (c : string) : bool :=
  match code error with
  | Some c' => String.eqb c' c
  | None => false
  end.

(** [error.response?.status === n] *)
Definition status_is (error : AxiosError) (n : Z) : bool :=
  match response_status error with
  | Some s => Z.eqb s n
  | None => false
  end.

(** The request interceptor only logs. *)
Definition requestInterceptor (config : Config) : IO Config :=
  (log (console_log "API Request:"
          [ArgString (Method_upper (method config)); ArgString (url config)]) ;;
   ret config)%io.

(** The response interceptor, success side. *)
Definition responseFulfilled {A} (config : Config) (r : AxiosResponse A)
  : IO (AxiosResponse A) :=
  (log (console_log "API Response:"
          [ArgStatus (Some (status r)); ArgString (url config)]) ;;
   ret r)%io.

(** The response interceptor, failure side: the one place where
    transport failures are rewritten. *)
Definition responseRejected {A} (error : AxiosError) : IO A :=
  (log (console_error "API Response Error:"
          [ArgStatus (response_status error); ArgString (message error)]) ;;
   if code_is error "ECONNREFUSED" then throw Unreachable
   else if status_is error 500 then throw ServerError
   else if status_is error 404 then throw NotFound
   else throw (Original error))%io.

(** [this.apiClient.get(url)] / [this.apiClient.post(url, body)]: both
    interceptors wrap every request. *)
Definition apiClient_request {A} (config : Config) (net : Transport A)
  : IO (AxiosResponse A) :=
  (config' <- requestInterceptor config ;;
   match net with
   | inl r => responseFulfilled config' r
   | inr error => responseRejected error
   end)%io.

Definition apiClient_get {A} (path : string) (net : Transport A) :=
  apiClient_request {| method := GET; url := path; body := None |} net.

Definition apiClient_post {A} (path : string) (b : ChatRequest)
  (net : Transport A) :=
  apiClient_request {| method := POST; url := path; body := Some b |} net.

(** Every method has the shape
    [try { ...; return response.data } catch (error) { console.error(label, error); throw error }]. *)
Definition logged {A} (label : string) (m : IO (AxiosResponse A)) : IO A :=
  catch (r <- m ;; ret (payload r))%io
        (fun error =>
           (log (console_error label [ArgThrown error]) ;; throw error)%io).

Definition sendMessage (msg conversationId : string)
  (net : Transport ChatResponse) : IO ChatResponse :=
  logged "Chat service error:"
    (apiClient_post "/chat"
       {| req_message := msg; req_conversation_id := conversationId |} net).

Definition getHealth (net : Transport json) : IO json :=
  logged "Health check error:" (apiClient_get "/health" net).

Definition getElasticsearchSchema (net : Transport json) : IO json :=
  logged "ES schema error:" (apiClient_get "/schema/elasticsearch" net).

Definition getPostgreSQLSchema (net : Transport json) : IO json :=
  logged "PG schema error:" (apiClient_get "/schema/postgresql" net).

(** [checkBackendAvailability] swallows the error. *)
Definition checkBackendAvailability (net : Transport json) : IO bool :=
  catch (apiClient_get "/" net ;; ret true)%io (fun _ => ret false).

(** What the caller of a method sees: the outcome without the console. *)
Definition outcome {A} (m : IO A) : JS.completion Thrown A := snd m.
Definition console {A} (m : IO A) : list LogEntry := fst m.

End ChatService.

(* ================================================================== *)
(** * components/ResultsDisplay.js                                    *)
(* ================================================================== *)

Module ResultsDisplay.
Import Payload.

(** ** Component state: the two [useState] cells *)

Record State := {
  viewMode : string;
  showRawData : bool
}.

(** [useState('summary')], [useState(false)] *)
Definition initialState : State :=
  {| viewMode := "summary"; showRawData := false |}.

(** The state setters. *)
Definition setViewMode (mode : string) (st : State) : State :=
  {| viewMode := mode; showRawData := showRawData st |}.

Definition setShowRawData (b : bool) (st : State) : State :=
  {| viewMode := viewMode st; showRawData := b |}.

(** An [onClick] closure, as data: [() => setViewMode(m)] or
    [() => setShowRawData(b)], [b] being the value computed when the
    button was rendered. *)
Inductive Handler : Type :=
| OnSetViewMode (mode : string)
| OnSetShowRawData (b : bool).

Definition run (h : Handler) (st : State) : State :=
  match h with
  | OnSetViewMode mode => setViewMode mode st
  | OnSetShowRawData b => setShowRawData b st
  end.

(** ** What a render returns

    Elements carry their tag and [className] (empty when there is
    none); [key] props are not part of the output. *)
Inductive vnode : Type :=
| Text (s : string)
| Icon (name : string) (size : nat)
| Elem (tag className : string) (children : list vnode)
| Button (className : string) (onClick : Handler) (children : list vnode).

(** A string-valued JSX expression: React makes no node for ['']. *)
Definition jsx_string (s : string) : list vnode :=
  match s with
  | EmptyString => []
  | _ => [Text s]
  end.

(** [{cond && element}] for a boolean [cond] *)
Definition jsx_when (cond : bool) (element : list vnode) : list vnode :=
  if cond then element else [].

(** The text a node shows ([Node.textContent]). *)
Fixpoint textContent (v : vnode) : string :=
  match v with
  | Text s => s
  | Icon _ _ => ""
  | Elem _ _ children => String.concat "" (map textContent children)
  | Button _ _ children => String.concat "" (map textContent children)
  end.

(** The click handlers of the buttons in a tree, in document order. *)
Fixpoint handlers (v : vnode) : list Handler :=
  match v with
  | Text _ => []
  | Icon _ _ => []
  | Elem _ _ children => flat_map handlers children
  | Button _ h children => h :: flat_map handlers children
  end.

(** The descendants (and the node itself) with a given [className]. *)
Fixpoint byClass (cls : string) (v : vnode) : list vnode :=
  match v with
  | Text _ => []
  | Icon _ _ => []
  | Elem _ c children =>
      (if String.eqb c cls then [v] else []) ++ flat_map (byClass cls) children
  | Button c _ children =>
      (if String.eqb c cls then [v] else []) ++ flat_map (byClass cls) children
  end.

(** The descendants (and the node itself) with a given tag. *)
Fixpoint byTag (tag : string) (v : vnode) : list vnode :=
  match v with
  | Text _ => []
  | Icon _ _ => []
  | Elem t _ children =>
      (if String.eqb t tag then [v] else []) ++ flat_map (byTag tag) children
  | Button _ _ children =>
      (if String.eqb "button" tag then [v] else [])
      ++ flat_map (byTag tag) children
  end.

(** ** Pure helpers of the component *)

(** [getTableColumns]: the inner [forEach] over the keys of one row. *)
Definition addRowKeys (allKeys : JS.StringSet) (result : row) : JS.StringSet :=
  fold_left
    (fun acc key => if negb (JS.startsWith key "_") then JS.Set_add acc key
                    else acc)
    (Object_keys result) allKeys.

Definition getTableColumns (results : list row) : list string :=
  if (length results =? 0)%nat then []
  else
    let allKeys := fold_left addRowKeys results [] in
    JS.slice0 6 (JS.Array_from allKeys).

Definition formatColumnName (col : string) : string :=
  JS.capitalizeWords (JS.replaceUnderscores col).

Definition getColumnClass (column : string) : string :=
  if JS.includes column "price" || JS.includes column "salary"
     || JS.includes column "amount" then "currency"
  else if JS.includes column "date" || JS.includes column "time" then "date"
  else if JS.includes column "id" then "id"
  else "".

Definition formatAggregationLabel (key : string) : string :=
  JS.capitalizeWords (JS.replaceUnderscores key).

(** [typeof value === 'string'], [typeof value === 'number'] *)
Definition isString (v : prim) : bool :=
  match v with PStr _ => true | _ => false end.

Definition isNumber (v : prim) : bool :=
  match v with PNum _ => true | _ => false end.

(** The string a cell holds, [''] for the other types (only read under
    [isString]). *)
Definition stringOf (v : prim) : string :=
  match v with PStr s => s | _ => "" end.

Section WithHost.
Context {host : Host}.

(** [value.toString()] *)
Definition toString (v : prim) : string :=
  match v with
  | PBool true => "true"
  | PBool false => "false"
  | PNum n => Number_toString n
  | PStr s => s
  end.

(** [value.toLocaleString()]: a number follows the locale, a string is
    itself, a boolean goes through [toString]. *)
Definition toLocaleString (v : prim) : string :=
  match v with
  | PNum n => Number_toLocaleString n
  | other => toString other
  end.

(** [formatCellValue(value, column)], statement by statement.  In the
    third test [&&] binds tighter than [||], in JavaScript as here: the
    test reads [(number && price) || salary]. *)
Definition formatCellValue (value : option scalar) (column : string) : string :=
  match value with
  | None => "-"
  | Some SNull => "-"
  | Some (SPrim v) =>
      if isString v && JS.includes (stringOf v) "T"
         && JS.includes (stringOf v) "Z"
      then
        JS.try_catch
          (JS.Normal (E := JS.exn)
             (JSDate.toLocaleDateString (JSDate.new_Date (stringOf v))))
          (fun _ => stringOf v)
      else if isNumber v && JS.includes column "price"
              || JS.includes column "salary"
      then "$" ++ toLocaleString v
      else if isString v && (50 <? String.length (stringOf v))%nat
      then JS.substring0 50 (stringOf v) ++ "..."
      else toString v
  end.

Definition formatValue (value : atom) : string :=
  match value with
  | ANumber n => Number_toLocaleString n
  | AString s => s
  end.

(** A string-or-number JSX expression. *)
Definition jsx_atom (a : atom) : list vnode :=
  match a with
  | AString s => jsx_string s
  | ANumber n => [Text (Number_toString n)]
  end.

(** ** The render functions *)

Definition renderBucket (bucket : Bucket.t) : vnode :=
  Elem "div" "bucket-item"
    [ Elem "span" "" (jsx_atom (Bucket.key bucket));
      Elem "span" "bucket-count" [Text (Number_toString (Bucket.count bucket))] ].

Definition renderMetric (entry : string * metric) : vnode :=
  let (key, value) := entry in
  Elem "div" "agg-item"
    [ Elem "span" "agg-label" (jsx_string (formatAggregationLabel key));
      Elem "span" "agg-value"
        match value with
        | MetricBuckets buckets =>
            [Elem "div" "bucket-list" (map renderBucket (JS.slice0 5 buckets))]
        | MetricValue v => jsx_string (formatValue v)
        end ].

Definition renderAggregationSource (entry : string * list (string * metric))
  : vnode :=
  let (source, aggs) := entry in
  Elem "div" "aggregation-source"
    [ Elem "h6" ""
        (jsx_string (String_toUpperCase (JS.charAt0 source) ++ JS.slice1 source));
      Elem "div" "agg-items" (map renderMetric aggs) ].

Definition renderAggregations (data : ResultEnvelope) : list vnode :=
  match aggregations data with
  | None => []
  | Some aggs =>
      [Elem "div" "aggregations" (map renderAggregationSource aggs)]
  end.

(** [{data.metadata?.processing_time && element}]: a falsy number is
    itself rendered, the other falsy values render nothing. *)
Definition renderProcessed (data : ResultEnvelope) : list vnode :=
  let stat :=
    [Elem "div" "stat" [Icon "Clock" 16; Elem "span" "" [Text "Processed"]]] in
  match metadata data with
  | None => []
  | Some m =>
      match lookup m "processing_time" with
      | None => []
      | Some JNull => []
      | Some (JBool b) => jsx_when b stat
      | Some (JNum n) =>
          if JS.falsy_number n then [Text (Number_toString n)] else stat
      | Some (JStr s) => jsx_when (JS.truthy_string s) stat
      | Some (JArr _) => stat
      | Some (JObj _) => stat
      end
  end.

Definition renderSummary (data : ResultEnvelope) : list vnode :=
  [Elem "div" "results-summary"
     ([ Elem "div" "summary-header"
          [ Elem "h4" "" [Text "Results Summary"];
            Elem "div" "summary-stats"
              (match total_results data with
               | Some n =>
                   [Elem "div" "stat"
                      [ Icon "Hash" 16;
                        Elem "span" "" [Text (Number_toString n); Text " records"] ]]
               | None => []
               end
               ++ match sources data with
                  | Some srcs =>
                      [Elem "div" "stat"
                         [ Icon "Database" 16;
                           Elem "span" "" (jsx_string (JS.join ", " srcs)) ]]
                  | None => []
                  end
               ++ renderProcessed data) ] ]
      ++ match summary data with
         | Some s =>
             jsx_when (JS.truthy_string s)
               [Elem "div" "summary-text" [Elem "p" "" [Text s]]]
         | None => []
         end
      ++ match aggregations data with
         | Some aggs =>
             jsx_when (0 <? length aggs)%nat
               [Elem "div" "aggregations-summary"
                  (Elem "h5" "" [Text "Key Metrics"] :: renderAggregations data)]
         | None => []
         end)].

(** The rows and the columns [renderTable] works with. *)
Definition tableRows (all : list row) : list row := JS.slice0 10 all.

Definition tableColumns (all : list row) : list string :=
  getTableColumns (tableRows all).

(** [data.total_results || results.length], as rendered text *)
Definition totalOrLength (data : ResultEnvelope) (shown : nat) : string :=
  match total_results data with
  | Some n => if JS.falsy_number n then JS.lengthToString shown
              else Number_toString n
  | None => JS.lengthToString shown
  end.

Definition renderHeaderCell (col : string) : vnode :=
  Elem "th" "" (jsx_string (formatColumnName col)).

Definition renderCell (r : row) (col : string) : vnode :=
  Elem "td" (getColumnClass col) (jsx_string (formatCellValue (getField r col) col)).

Definition renderRow (columns : list string) (r : row) : vnode :=
  Elem "tr" "" (map (renderCell r) columns).

Definition renderTable (data : ResultEnvelope) : list vnode :=
  match results data with
  | None => [Elem "div" "no-results" [Text "No detailed results to display"]]
  | Some [] => [Elem "div" "no-results" [Text "No detailed results to display"]]
  | Some all =>
      let rows := tableRows all in
      let columns := getTableColumns rows in
      [Elem "div" "results-table-container"
         [ Elem "div" "table-header"
             [ Elem "h4" "" [Text "Detailed Results"];
               Elem "span" "result-count"
                 [ Text "Showing "; Text (JS.lengthToString (length rows));
                   Text " of "; Text (totalOrLength data (length rows));
                   Text " results" ] ];
           Elem "div" "table-wrapper"
             [ Elem "table" "results-table"
                 [ Elem "thead" "" [Elem "tr" "" (map renderHeaderCell columns)];
                   Elem "tbody" "" (map (renderRow columns) rows) ] ] ]]
  end.

(** One [timeline-sample]: the serialisation cut at 100 code units,
    then the literal text [...]. *)
Definition renderSample (sample : json) : vnode :=
  Elem "div" "timeline-sample"
    (jsx_string (JS.substring0 100 (JSON_stringify sample)) ++ [Text "..."]).

(** [{item.items && item.items.length > 0 && (...)}] *)
Definition renderSamples (item : TimelineItem) : list vnode :=
  match items item with
  | None => []
  | Some [] => []
  | Some samples =>
      [Elem "div" "timeline-samples" (map renderSample (JS.slice0 2 samples))]
  end.

Definition renderTimelineItem (item : TimelineItem) : vnode :=
  Elem "div" "timeline-item"
    [ Elem "div" "timeline-date" (jsx_string (date item));
      Elem "div" "timeline-content"
        (Elem "div" "timeline-count"
           [Text (Number_toString (count item)); Text " items"]
         :: renderSamples item) ].

Definition renderTimeline (data : ResultEnvelope) : list vnode :=
  match timeline data with
  | None => []
  | Some [] => []
  | Some entries =>
      [Elem "div" "timeline-view"
         [ Elem "h4" "" [Text "Timeline Analysis"];
           Elem "div" "timeline" (map renderTimelineItem entries) ]]
  end.

Definition renderRawData (data : ResultEnvelope) : list vnode :=
  [Elem "div" "raw-data"
     [Elem "pre" "" (jsx_string (JSON_stringify_indent2 data))]].

(** [cond ? 'active' : ''] *)
Definition activeClass (st : State) (mode : string) : string :=
  if String.eqb (viewMode st) mode then "active" else "".

(** [data.results && data.results.length > 0] and the same test on
    [data.timeline]. *)
Definition nonEmpty {A} (field : option (list A)) : bool :=
  match field with
  | Some (_ :: _) => true
  | _ => false
  end.

Definition viewControls (data : ResultEnvelope) (st : State) : vnode :=
  Elem "div" "view-controls"
    ([ Button (activeClass st "summary") (OnSetViewMode "summary")
         [Icon "BarChart3" 16; Text "Summary"] ]
     ++ jsx_when (nonEmpty (results data))
          [ Button (activeClass st "table") (OnSetViewMode "table")
              [Icon "Table" 16; Text "Table"] ]
     ++ jsx_when (nonEmpty (timeline data))
          [ Button (activeClass st "timeline") (OnSetViewMode "timeline")
              [Icon "TrendingUp" 16; Text "Timeline"] ]).

Definition dataControls (st : State) : vnode :=
  Elem "div" "data-controls"
    [ Button "raw-data-toggle" (OnSetShowRawData (negb (showRawData st)))
        [ (if showRawData st then Icon "EyeOff" 16 else Icon "Eye" 16);
          Text "Raw Data" ] ].

Definition resultsContent (data : ResultEnvelope) (st : State) : vnode :=
  Elem "div" "results-content"
    (if showRawData st then renderRawData data
     else
       jsx_when (String.eqb (viewMode st) "summary") (renderSummary data)
       ++ jsx_when (String.eqb (viewMode st) "table") (renderTable data)
       ++ jsx_when (String.eqb (viewMode st) "timeline") (renderTimeline data)).

(** The component: [None] is [return null]. *)
Definition ResultsDisplay (data : option ResultEnvelope) (st : State)
  : option vnode :=
  match data with
  | None => None
  | Some d =>
      if (length (envelope_keys d) =? 0)%nat then None
      else
        Some (Elem "div" "results-display"
                [ Elem "div" "results-header"
                    [viewControls d st; dataControls st];
                  resultsContent d st ])
  end.

End WithHost.

(** The buttons the current render offers, by their handlers. *)
Definition offered {host : Host} (data : option ResultEnvelope) (st : State)
  : list Handler :=
  match ResultsDisplay data st with
  | None => []
  | Some v => handlers v
  end.

End ResultsDisplay.

(* ================================================================== *)
(** * components/ChatInterface.js                                     *)
(* ================================================================== *)

Module ChatInterface.

Inductive MessageType := user | bot.

(** An entry of [messages].  [error] is [false] where the source leaves
    the key out; [data] and [queryInfo] are [None] where it does. *)
Record Message := {
  id : Z;
  type : MessageType;
  content : string;
  data : option Payload.ResultEnvelope;
  queryInfo : option Payload.QueryInfo;
  error : bool;
  timestamp : Z
}.

(** The [useState] cells of the component ([conversationId] never
    changes). *)
Record State := {
  messages : list Message;
  inputValue : string;
  isLoading : bool
}.

Definition conversationId : string := "default".

(** The two clock reads of a handler: [Date.now()] and [new Date()]. *)
Record Clock := {
  Date_now : Z;
  new_Date : Z
}.

Definition greeting : string :=
  "Hello! I'm your AI assistant for querying Elasticsearch and PostgreSQL. Ask me anything about your data using natural language!".

Definition initialState (clock : Clock) : State :=
  {| messages :=
       [ {| id := 1; type := bot; content := greeting; data := None;
            queryInfo := None; error := false;
            timestamp := new_Date clock |} ];
     inputValue := "";
     isLoading := false |}.

(** [setMessages(prev => [...prev, m])] *)
Definition appendMessage (m : Message) (st : State) : State :=
  {| messages := messages st ++ [m];
     inputValue := inputValue st;
     isLoading := isLoading st |}.

Definition setInputValue (v : string) (st : State) : State :=
  {| messages := messages st; inputValue := v; isLoading := isLoading st |}.

Definition setIsLoading (b : bool) (st : State) : State :=
  {| messages := messages st; inputValue := inputValue st; isLoading := b |}.

Definition userMessage (clock : Clock) (text : string) : Message :=
  {| id := Date_now clock; type := user; content := text; data := None;
     queryInfo := None; error := false; timestamp := new_Date clock |}.

Definition botMessage (clock : Clock) (r : Payload.ChatResponse) : Message :=
  {| id := Date_now clock + 1; type := bot;
     content := Payload.response r;
     data := Payload.data r;
     queryInfo := Payload.query_info r;
     error := false;
     timestamp := new_Date clock |}.

Definition apology : string :=
  "Sorry, I encountered an error processing your request. Please try again.".

Definition errorMessage (clock : Clock) : Message :=
  {| id := Date_now clock + 1; type := bot; content := apology;
     data := None; queryInfo := None; error := true;
     timestamp := new_Date clock |}.

(** [handleSendMessage] up to its [await]: the guard, the user message,
    the cleared input, the loading flag, and the request handed to the
    service.  [None] is the early [return]: nothing is sent. *)
Definition handleSendMessage_submit (clock : Clock) (st : State)
  : State * option ChatService.ChatRequest :=
  if negb (JS.truthy_string (JS.trim (inputValue st))) || isLoading st
  then (st, None)
  else
    (setIsLoading true
       (setInputValue ""
          (appendMessage (userMessage clock (inputValue st)) st)),
     Some {| ChatService.req_message := inputValue st;
             ChatService.req_conversation_id := conversationId |}).

(** [handleSendMessage] after the [await]: the rest of the [try], the
    [catch] and the [finally]. *)
Definition handleSendMessage_settle (clock : Clock)
  (result : JS.completion ChatService.Thrown Payload.ChatResponse) (st : State)
  : State * list ChatService.LogEntry :=
  let (st', out) :=
    match result with
    | JS.Normal r => (appendMessage (botMessage clock r) st, [])
    | JS.Throw e =>
        (appendMessage (errorMessage clock) st,
         [ChatService.console_error "Chat error:" [ChatService.ArgThrown e]])
    end in
  (setIsLoading false st', out).

(** One whole call of [handleSendMessage], the network's answer given. *)
Definition handleSendMessage (before after : Clock)
  (net : ChatService.Transport Payload.ChatResponse) (st : State)
  : State * list ChatService.LogEntry :=
  match handleSendMessage_submit before st with
  | (st1, None) => (st1, [])
  | (st1, Some req) =>
      let io := ChatService.sendMessage (ChatService.req_message req)
                  (ChatService.req_conversation_id req) net in
      let (st2, out) :=
        handleSendMessage_settle after (ChatService.outcome io) st1 in
      (st2, ChatService.console io ++ out)
  end.

(** [handleQuickQuery] fills the input and submits nothing. *)
Definition handleQuickQuery (query : string) (st : State) : State :=
  setInputValue query st.

(** White space only: every code unit is white space (the empty string
    included). *)
Definition whitespaceOnly (s : string) : Prop :=
  Forall (fun c => JS.isWhiteSpace c = true) (list_ascii_of_string s).

End ChatInterface.

(* ================================================================== *)
(** * A reference host: en-US locale, UTC                             *)
(* ================================================================== *)

(** One concrete [Host], to run the components on sample inputs.  It
    prints a number by its exact decimal expansion (the engine's
    shortest form whenever the expansion has at most 15 significant
    digits), groups by thousands with at most three fraction digits,
    parses the date-time format ECMAScript requires with a literal [Z],
    and serialises JSON as [JSON.stringify] does. *)
Module Reference.
Import Payload.

Definition natural (n : Z) : string :=
  NilZero.string_of_uint (N.to_uint (Z.to_N n)).

(** [n] as exactly [width] digits, zero-padded on the left. *)
Fixpoint padded (width : nat) (n : Z) : string :=
  match width with
  | O => ""
  | S w => padded w (n / 10) ++ natural (n mod 10)
  end.

(** Removes trailing zeros of a fraction. *)
Fixpoint stripZeros (s : string) : string :=
  match s with
  | EmptyString => EmptyString
  | String c rest =>
      match stripZeros rest with
      | EmptyString => if Ascii.eqb c "0"%char then EmptyString
                       else String c EmptyString
      | kept => String c kept
      end
  end.

(** The fraction [r / 2^k] ([0 <= r < 2^k]) as decimal digits. *)
Fixpoint fractionDigits (fuel : nat) (r : Z) (k : Z) : string :=
  match fuel with
  | O => ""
  | S fuel' =>
      if (r =? 0)%Z then ""
      else
        let r10 := (r * 10)%Z in
        natural (Z.shiftr r10 k)
        ++ fractionDigits fuel' (r10 - Z.shiftl (Z.shiftr r10 k) k)%Z k
  end.

Definition withSign (negative : bool) (s : string) : string :=
  if negative then "-" ++ s else s.

Definition numberToString (x : float) : string :=
  match Prim2SF x with
  | S754_zero _ => "0"
  | S754_infinity negative => withSign negative "Infinity"
  | S754_nan => "NaN"
  | S754_finite negative m e =>
      withSign negative
        (if (0 <=? e)%Z then natural (Z.shiftl (Zpos m) e)
         else
           let k := (- e)%Z in
           let whole := Z.shiftr (Zpos m) k in
           let r := (Zpos m - Z.shiftl whole k)%Z in
           match fractionDigits (Z.to_nat k) r k with
           | EmptyString => natural whole
           | digits => natural whole ++ "." ++ digits
           end)
  end.

(** Groups of three digits separated by commas. *)
Fixpoint groupedFuel (fuel : nat) (n : Z) : string :=
  match fuel with
  | O => natural n
  | S fuel' =>
      if (n <? 1000)%Z then natural n
      else groupedFuel fuel' (n / 1000) ++ "," ++ padded 3 (n mod 1000)
  end.

Definition grouped (n : Z) : string := groupedFuel (Z.to_nat (Z.log2 n)) n.

(** The magnitude in thousandths, halves rounded away from zero. *)
Definition thousandths (m : positive) (e : Z) : Z :=
  if (0 <=? e)%Z then Z.shiftl (Zpos m * 1000) e
  else
    let k := (- e)%Z in
    Z.shiftr (Zpos m * 2000 + Z.shiftl 1 k) (k + 1).

(** The en-US form of a finite number.  The locale's sign for infinity
    is a code unit above 255; the reference host spells it out. *)
Definition numberToLocaleString (x : float) : string :=
  match Prim2SF x with
  | S754_zero negative => withSign negative "0"
  | S754_infinity negative => withSign negative "Infinity"
  | S754_nan => "NaN"
  | S754_finite negative m e =>
      let t := thousandths m e in
      withSign negative
        (match stripZeros (padded 3 (t mod 1000)) with
         | EmptyString => grouped (t / 1000)
         | digits => grouped (t / 1000) ++ "." ++ digits
         end)
  end.

Definition upcaseAscii (c : ascii) : ascii :=
  let n := nat_of_ascii c in
  if ((97 <=? n) && (n <=? 122))%nat then ascii_of_nat (n - 32) else c.

Fixpoint toUpperCase (s : string) : string :=
  match s with
  | EmptyString => EmptyString
  | String c rest => String (upcaseAscii c) (toUpperCase rest)
  end.

(** ** Dates *)

Definition digit (c : ascii) : option Z :=
  let n := nat_of_ascii c in
  if ((48 <=? n) && (n <=? 57))%nat then Some (Z.of_nat (n - 48)) else None.

(** Reads exactly [width] digits. *)
Fixpoint readDigits (width : nat) (acc : Z) (s : string) : option (Z * string) :=
  match width with
  | O => Some (acc, s)
  | S w =>
      match s with
      | EmptyString => None
      | String c rest =>
          match digit c with
          | Some d => readDigits w (acc * 10 + d) rest
          | None => None
          end
      end
  end.

Definition expect (c : ascii) (s : string) : option string :=
  match s with
  | String c' rest => if Ascii.eqb c c' then Some rest else None
  | EmptyString => None
  end.

(** Days from 1970-01-01 to the given civil date. *)
Definition daysFromCivil (y m d : Z) : Z :=
  let y' := (if m <=? 2 then y - 1 else y)%Z in
  let era := (y' / 400)%Z in
  let yoe := (y' - era * 400)%Z in
  let mp := (if 2 <? m then m - 3 else m + 9)%Z in
  let doy := ((153 * mp + 2) / 5 + d - 1)%Z in
  let doe := (yoe * 365 + yoe / 4 - yoe / 100 + doy)%Z in
  (era * 146097 + doe - 719468)%Z.

(** The civil date of a day count: year, month, day. *)
Definition civilFromDays (days : Z) : Z * Z * Z :=
  let z := (days + 719468)%Z in
  let era := (z / 146097)%Z in
  let doe := (z - era * 146097)%Z in
  let yoe := ((doe - doe / 1460 + doe / 36524 - doe / 146096) / 365)%Z in
  let doy := (doe - (365 * yoe + yoe / 4 - yoe / 100))%Z in
  let mp := ((5 * doy + 2) / 153)%Z in
  let d := (doy - (153 * mp + 2) / 5 + 1)%Z in
  let m := (if mp <? 10 then mp + 3 else mp - 9)%Z in
  let y := (yoe + era * 400)%Z in
  ((if m <=? 2 then y + 1 else y)%Z, m, d).

Definition bind {A B} (o : option A) (k : A -> option B) : option B :=
  match o with
  | Some a => k a
  | None => None
  end.

(** The optional [.sss] and the final [Z]. *)
Definition readMillisAndZone (s : string) : option Z :=
  match s with
  | String "Z" EmptyString => Some 0%Z
  | String "." rest =>
      bind (readDigits 3 0 rest) (fun '(ms, rest') =>
      match rest' with
      | String "Z" EmptyString => Some ms
      | _ => None
      end)
  | _ => None
  end.

(** [YYYY-MM-DDTHH:mm:ss(.sss)Z] to milliseconds since the epoch. *)
Definition parseDate (s : string) : option Z :=
  bind (readDigits 4 0 s) (fun '(y, s) =>
  bind (expect "-" s) (fun s =>
  bind (readDigits 2 0 s) (fun '(mo, s) =>
  bind (expect "-" s) (fun s =>
  bind (readDigits 2 0 s) (fun '(d, s) =>
  bind (expect "T" s) (fun s =>
  bind (readDigits 2 0 s) (fun '(h, s) =>
  bind (expect ":" s) (fun s =>
  bind (readDigits 2 0 s) (fun '(mi, s) =>
  bind (expect ":" s) (fun s =>
  bind (readDigits 2 0 s) (fun '(sec, s) =>
  bind (readMillisAndZone s) (fun ms =>
  if ((1 <=? mo) && (mo <=? 12) && (1 <=? d) && (d <=? 31)
      && (h <=? 23) && (mi <=? 59) && (sec <=? 59))%Z
  then Some ((((daysFromCivil y mo d * 24 + h) * 60 + mi) * 60 + sec) * 1000
             + ms)%Z
  else None)))))))))))).

(** [M/D/YYYY] of the UTC day a time value falls in. *)
Definition dateToLocaleDateString (tv : Z) : string :=
  let '(y, m, d) := civilFromDays (tv / 86400000) in
  natural m ++ "/" ++ natural d ++ "/" ++ natural y.

(** ** JSON *)

Definition hexDigit (n : nat) : ascii :=
  if (n <? 10)%nat then ascii_of_nat (48 + n) else ascii_of_nat (87 + n).

Definition doubleQuote : string := String (ascii_of_nat 34) EmptyString.

Definition escapeChar (c : ascii) : string :=
  let n := nat_of_ascii c in
  if (n =? 34)%nat then "\" ++ doubleQuote
  else if (n =? 92)%nat then "\\"
  else if (n =? 8)%nat then "\b"
  else if (n =? 9)%nat then "\t"
  else if (n =? 10)%nat then "\n"
  else if (n =? 12)%nat then "\f"
  else if (n =? 13)%nat then "\r"
  else if (n <? 32)%nat
       then "\u00" ++ String (hexDigit (n / 16)) (String (hexDigit (n mod 16)) "")
  else String c "".

Fixpoint escape (s : string) : string :=
  match s with
  | EmptyString => EmptyString
  | String c rest => escapeChar c ++ escape rest
  end.

Definition quote (s : string) : string := doubleQuote ++ escape s ++ doubleQuote.

(** [JSON.stringify] of a number: the non-finite ones become [null]. *)
Definition jsonNumber (x : float) : string :=
  match Prim2SF x with
  | S754_infinity _ => "null"
  | S754_nan => "null"
  | _ => numberToString x
  end.

(** A line break followed by [depth] levels of [indent] spaces; nothing
    when [indent] is 0 (the compact form). *)
Definition newline (indent depth : nat) : string :=
  match indent with
  | O => ""
  | _ => String (ascii_of_nat 10) (String.concat "" (repeat " " (indent * depth)))
  end.

Definition colon (indent : nat) : string :=
  match indent with
  | O => ":"
  | _ => ": "
  end.

(** Brackets around the members, one per line when indenting. *)
Definition bracket (indent depth : nat) (opening closing : string)
  (members : list string) : string :=
  match members with
  | [] => opening ++ closing
  | _ =>
      opening ++ newline indent (S depth)
      ++ String.concat ("," ++ newline indent (S depth)) members
      ++ newline indent depth ++ closing
  end.

Fixpoint stringify (indent depth : nat) (v : json) : string :=
  match v with
  | JNull => "null"
  | JBool true => "true"
  | JBool false => "false"
  | JNum n => jsonNumber n
  | JStr s => quote s
  | JArr elements =>
      bracket indent depth "[" "]" (map (stringify indent (S depth)) elements)
  | JObj fields =>
      bracket indent depth "{" "}"
        (map (fun kv : string * json =>
                (quote (fst kv) ++ colon indent
                 ++ stringify indent (S depth) (snd kv))%string) fields)
  end.

(** The envelope as the JSON object it was parsed from, keys in the
    order of the record. *)
Definition scalarToJson (v : scalar) : json :=
  match v with
  | SNull => JNull
  | SPrim (PBool b) => JBool b
  | SPrim (PNum n) => JNum n
  | SPrim (PStr s) => JStr s
  end.

Definition atomToJson (a : atom) : json :=
  match a with
  | AString s => JStr s
  | ANumber n => JNum n
  end.

Definition bucketToJson (b : Bucket.t) : json :=
  JObj [("key", atomToJson (Bucket.key b)); ("count", JNum (Bucket.count b))].

Definition metricToJson (m : metric) : json :=
  match m with
  | MetricValue a => atomToJson a
  | MetricBuckets bs => JArr (map bucketToJson bs)
  end.

Definition mapValues {A} (f : A -> json) (fields : list (string * A))
  : list (string * json) :=
  map (fun kv => (fst kv, f (snd kv))) fields.

Definition timelineToJson (t : TimelineItem) : json :=
  JObj ([("date", JStr (date t)); ("count", JNum (count t))]
        ++ match items t with
           | Some xs => [("items", JArr xs)]
           | None => []
           end).

Definition field {A} (name : string) (f : A -> json) (o : option A)
  : list (string * json) :=
  match o with
  | Some a => [(name, f a)]
  | None => []
  end.

Definition envelopeToJson (d : ResultEnvelope) : json :=
  JObj (field "total_results" JNum (total_results d)
        ++ field "sources" (fun l => JArr (map JStr l)) (sources d)
        ++ field "summary" JStr (summary d)
        ++ field "aggregations"
             (fun a => JObj (mapValues (fun ms => JObj (mapValues metricToJson ms)) a))
             (aggregations d)
        ++ field "results"
             (fun rs => JArr (map (fun r => JObj (mapValues scalarToJson r)) rs))
             (results d)
        ++ field "timeline" (fun ts => JArr (map timelineToJson ts)) (timeline d)
        ++ field "metadata" JObj (metadata d)).

#[export] Instance host : Host := {|
  Number_toString := numberToString;
  Number_toLocaleString := numberToLocaleString;
  String_toUpperCase := toUpperCase;
  Date_parse := parseDate;
  Date_toLocaleDateString := dateToLocaleDateString;
  JSON_stringify := stringify 0 0;
  JSON_stringify_indent2 := fun d => stringify 2 0 (envelopeToJson d)
|}.

End Reference.

(* ================================================================== *)
(** * The specification's vocabulary                                  *)
(* ================================================================== *)

(** Definitions that follow the words of the specification rather than
    the code; the theorems compare the code with them. *)
Module Specification.
Import Payload.

(** The distinct elements of a list, each at its first occurrence. *)
Fixpoint firstSeen (names : list string) : list string :=
  match names with
  | [] => []
  | name :: rest =>
      name :: filter (fun other => negb (String.eqb other name)) (firstSeen rest)
  end.

(** Field names that do not begin with the private-field marker. *)
Definition isPublic (name : string) : bool := negb (JS.startsWith name "_").

(** The union of the public field names of some rows, in row order. *)
Definition publicNames (rows : list row) : list string :=
  filter isPublic (flat_map Object_keys rows).

(** "Union of field names across the displayed rows, excluding private
    names, capped at the first 6 distinct names encountered in row
    order." *)
Definition columnSet (all : list row) : list string :=
  firstn 6 (firstSeen (publicNames (firstn 10 all))).

(** The rows of an envelope, none when [results] is absent. *)
Definition rowsOf (d : ResultEnvelope) : list row :=
  match results d with
  | Some all => all
  | None => []
  end.

(** The samples of a timeline bucket, none when [items] is absent. *)
Definition itemsOf (t : TimelineItem) : list json :=
  match items t with
  | Some samples => samples
  | None => []
  end.

(** "All optional fields absent." *)
Definition allAbsent (d : ResultEnvelope) : Prop :=
  total_results d = None /\ sources d = None /\ summary d = None
  /\ aggregations d = None /\ results d = None /\ timeline d = None
  /\ metadata d = None.

(** A field that is absent or holds an empty sequence. *)
Definition noneOrEmpty {A} (field : option (list A)) : bool :=
  match field with
  | None => true
  | Some [] => true
  | Some (_ :: _) => false
  end.

(** "All fields absent/empty": a count cannot be empty, a text is empty
    when it is [''], a sequence or mapping when it has no entry. *)
Definition allAbsentOrEmpty (d : ResultEnvelope) : bool :=
  match total_results d with None => true | Some _ => false end
  && noneOrEmpty (sources d)
  && match summary d with None => true | Some s => negb (JS.truthy_string s) end
  && noneOrEmpty (aggregations d)
  && noneOrEmpty (results d)
  && noneOrEmpty (timeline d)
  && noneOrEmpty (metadata d).

(** View-mode eligibility: "summary: always eligible if the envelope is
    non-empty; table: iff results is a non-empty sequence; timeline:
    iff timeline is a non-empty sequence; raw: always eligible". *)
Definition eligible (d : ResultEnvelope) (mode : string) : bool :=
  if String.eqb mode "summary" then true
  else if String.eqb mode "table" then ResultsDisplay.nonEmpty (results d)
  else if String.eqb mode "timeline" then ResultsDisplay.nonEmpty (timeline d)
  else if String.eqb mode "raw" then true
  else false.

(** [toggleRaw()]: a click on the Raw Data button of the current
    render, whose handler was built from the current [showRawData]. *)
Definition toggleRaw (st : ResultsDisplay.State) : ResultsDisplay.State :=
  ResultsDisplay.run
    (ResultsDisplay.OnSetShowRawData (negb (ResultsDisplay.showRawData st))) st.

(** HTTP 5xx *)
Definition is5xx (s : Z) : Prop := (500 <= s <= 599)%Z.

End Specification.

(* ================================================================== *)
(** * Sample inputs                                                   *)
(* ================================================================== *)

Module Samples.
Import Payload.

Definition noon : ChatInterface.Clock :=
  {| ChatInterface.Date_now := 1705314600000;
     ChatInterface.new_Date := 1705314600000 |}.

Definition later : ChatInterface.Clock :=
  {| ChatInterface.Date_now := 1705314630000;
     ChatInterface.new_Date := 1705314630000 |}.

(** The state after mounting. *)
Definition fresh : ChatInterface.State := ChatInterface.initialState noon.

(** Only blanks and a tab typed. *)
Definition blankInput : ChatInterface.State :=
  ChatInterface.setInputValue
    (String " " (String (ascii_of_nat 9) (String " " EmptyString))) fresh.

Definition typed : ChatInterface.State :=
  ChatInterface.setInputValue "How many users do we have?" fresh.

(** A turn is in flight and more text has been typed. *)
Definition sending : ChatInterface.State :=
  ChatInterface.setInputValue "Count all products"
    (fst (ChatInterface.handleSendMessage_submit noon typed)).

(** axios errors: a time-out, a refused connection, and three HTTP
    statuses. *)
Definition timedOut : ChatService.AxiosError :=
  {| ChatService.code := Some "ECONNABORTED";
     ChatService.response_status := None;
     ChatService.message := "timeout of 30000ms exceeded" |}.

Definition refused : ChatService.AxiosError :=
  {| ChatService.code := Some "ECONNREFUSED";
     ChatService.response_status := None;
     ChatService.message := "connect ECONNREFUSED 127.0.0.1:8000" |}.

Definition httpError (s : Z) (text : string) : ChatService.AxiosError :=
  {| ChatService.code := Some "ERR_BAD_RESPONSE";
     ChatService.response_status := Some s;
     ChatService.message := text |}.

Definition internalError := httpError 500 "Request failed with status code 500".
Definition unavailable := httpError 503 "Request failed with status code 503".
Definition missing := httpError 404 "Request failed with status code 404".
Definition forbidden := httpError 403 "Request failed with status code 403".

(** Envelopes. *)
Definition noFields : ResultEnvelope :=
  {| total_results := None; sources := None; summary := None;
     aggregations := None; results := None; timeline := None;
     metadata := None |}.

(** [{ "results": [] }] *)
Definition emptyResults : ResultEnvelope :=
  {| total_results := None; sources := None; summary := None;
     aggregations := None; results := Some []; timeline := None;
     metadata := None |}.

(** [{ "summary": "Found 5 users" }] *)
Definition summaryOnly : ResultEnvelope :=
  {| total_results := None; sources := None;
     summary := Some "Found 5 users";
     aggregations := None; results := None; timeline := None;
     metadata := None |}.

Definition alice : row :=
  [("name", SStr "Alice"); ("id", SNum 1); ("salary", SNum 87234.5);
   ("_score", SNum 1); ("hired_at", SStr "2024-01-15T10:30:00Z")].

Definition bob : row :=
  [("id", SNum 2); ("name", SStr "Bob"); ("salary", SStr "85000.00");
   ("employer", SStr "ZTE Corporation")].

Definition sampleItem : json := JObj [("id", JNum 1); ("name", JStr "A")].

Definition day : TimelineItem :=
  {| date := "2024-01-15"; count := 3;
     items := Some [sampleItem; JStr "b"; JNull] |}.

(** [{ total_results: 5, sources: [...], results: [...], timeline: [...] }] *)
Definition users : ResultEnvelope :=
  {| total_results := Some 5%float;
     sources := Some ["postgresql"];
     summary := None;
     aggregations := None;
     results := Some [alice; bob];
     timeline := Some [day];
     metadata := None |}.

Definition reply : ChatResponse :=
  {| response := "I found 5 users in the database.";
     data := Some users;
     query_info := None;
     conversation_id := "default" |}.

End Samples.

(* ================================================================== *)
(** * components/ChatMessage.js                                       *)
(* ================================================================== *)

Module ChatMessage.
Import Payload.

(** [content.replace(/\n/g, '<br>')]: every line feed becomes the
    markup of a line break. *)
Definition lineFeed : ascii := ascii_of_nat 10.

Fixpoint replaceNewlines (s : string) : string :=
  match s with
  | EmptyString => EmptyString
  | String c rest =>
      if Ascii.eqb c lineFeed then "<br>" ++ replaceNewlines rest
      else String c (replaceNewlines rest)
  end.

(** [intent.replace('_', ' ')]: with a string pattern only the first
    occurrence is replaced. *)
Fixpoint replaceFirstUnderscore (s : string) : string :=
  match s with
  | EmptyString => EmptyString
  | String c rest =>
      if Ascii.eqb c "_"%char then String " "%char rest
      else String c (replaceFirstUnderscore rest)
  end.

(** How often a character occurs in a string. *)
Fixpoint occurrences (c : ascii) (s : string) : nat :=
  match s with
  | EmptyString => 0
  | String c' rest =>
      (if Ascii.eqb c' c then 1 else 0) + occurrences c rest
  end.

(** What the component returns.  [Html] is a [div] filled through
    [dangerouslySetInnerHTML]; [Embedded] is the output of the
    [ResultsDisplay] child. *)
Inductive node : Type :=
| Text (s : string)
| Html (markup : string)
| Icon (name : string) (size : nat) (className : string)
| Elem (tag className : string) (children : list node)
| Embedded (v : ResultsDisplay.vnode).

Definition jsx_string (s : string) : list node :=
  match s with
  | EmptyString => []
  | _ => [Text s]
  end.

(** The markup strings set as inner HTML, in document order. *)
Fixpoint markups (n : node) : list string :=
  match n with
  | Html markup => [markup]
  | Elem _ _ children => flat_map markups children
  | _ => []
  end.

(** The outputs of the [ResultsDisplay] children. *)
Fixpoint embedded (n : node) : list ResultsDisplay.vnode :=
  match n with
  | Embedded v => [v]
  | Elem _ _ children => flat_map embedded children
  | _ => []
  end.

(** The descendants (and the node itself) with a given [className]. *)
Fixpoint byClass (cls : string) (n : node) : list node :=
  match n with
  | Elem _ c children =>
      (if String.eqb c cls then [n] else []) ++ flat_map (byClass cls) children
  | _ => []
  end.

(** The text nodes of a tree, concatenated. *)
Fixpoint textOf (n : node) : string :=
  match n with
  | Text s => s
  | Elem _ _ children => String.concat "" (map textOf children)
  | _ => ""
  end.

Definition typeName (t : ChatInterface.MessageType) : string :=
  match t with
  | ChatInterface.user => "user"
  | ChatInterface.bot => "bot"
  end.

Definition getMessageIcon (message : ChatInterface.Message) : node :=
  match ChatInterface.type message with
  | ChatInterface.user => Icon "User" 20 ""
  | ChatInterface.bot =>
      if ChatInterface.error message then Icon "Bot" 20 "error-icon"
      else Icon "Bot" 20 ""
  end.

Definition indicator (cls label : string) : node :=
  Elem "div" ("source-indicator " ++ cls)
    [Icon "Database" 14 ""; Elem "span" "" [Text label]].

(** The badges pushed for a routing, Elasticsearch first. *)
Definition indicators (r : Routing) : list node :=
  (if use_elasticsearch r then [indicator "elasticsearch" "ES"] else [])
  ++ (if use_postgresql r then [indicator "postgresql" "PG"] else []).

(** [getSourceIndicators]: nothing without query info, without routing,
    or without a badge. *)
Definition getSourceIndicators (message : ChatInterface.Message) : list node :=
  match ChatInterface.queryInfo message with
  | None => []
  | Some info =>
      match routing info with
      | None => []
      | Some r =>
          match indicators r with
          | [] => []
          | badges => [Elem "div" "source-indicators" badges]
          end
      end
  end.

(** [[es && 'Elasticsearch', pg && 'PostgreSQL'].filter(Boolean)] *)
Definition sourceNames (r : Routing) : list string :=
  (if use_elasticsearch r then ["Elasticsearch"] else [])
  ++ (if use_postgresql r then ["PostgreSQL"] else []).

Definition detail (label : string) (value : string) : node :=
  Elem "div" "query-detail"
    ([Elem "strong" "" [Text label]; Text " "] ++ jsx_string value).

(** The block under [{queryInfo && (...)}]. *)
Definition renderQueryInfo (info : QueryInfo) : node :=
  Elem "div" "query-info"
    [ Elem "div" "query-info-header"
        [Icon "Brain" 14 ""; Elem "span" "" [Text "Query Analysis"]];
      Elem "div" "query-details"
        (match intent info with
         | Some i =>
             if JS.truthy_string i
             then [detail "Intent:" (replaceFirstUnderscore i)]
             else []
         | None => []
         end
         ++ match entities info with
            | Some (e :: es) => [detail "Entities:" (JS.join ", " (e :: es))]
            | _ => []
            end
         ++ match routing info with
            | Some r => [detail "Sources:" (JS.join ", " (sourceNames r))]
            | None => []
            end) ].

(** The [className] of the outer [div]: a template string, so a
    message that is no error ends in a blank. *)
Definition messageClass (message : ChatInterface.Message) : string :=
  "message " ++ typeName (ChatInterface.type message) ++ "-message "
  ++ (if ChatInterface.error message then "error" else "").

Section WithHost.
Context {host : Host}.

(** [Intl.DateTimeFormat('en-US', ...).format], taken from the engine. *)
Variable formatTime : Z -> string.

(** The component.  [st] is the state of the [ResultsDisplay] child. *)
Definition ChatMessage (message : ChatInterface.Message)
  (st : ResultsDisplay.State) : node :=
  Elem "div" (messageClass message)
    [ Elem "div" ("message-avatar " ++ typeName (ChatInterface.type message))
        [getMessageIcon message];
      Elem "div" "message-content"
        ([ Elem "div" "message-header"
             [ Elem "span" "message-sender"
                 [Text (match ChatInterface.type message with
                        | ChatInterface.user => "You"
                        | ChatInterface.bot => "AI Assistant"
                        end)];
               Elem "div" "message-meta"
                 (getSourceIndicators message
                  ++ [Elem "div" "message-time"
                        (Icon "Clock" 12 ""
                         :: jsx_string
                              (formatTime (ChatInterface.timestamp message)))]) ];
           Elem "div" "message-text"
             [Html (replaceNewlines (ChatInterface.content message))] ]
         ++ match ChatInterface.queryInfo message with
            | Some info => [renderQueryInfo info]
            | None => []
            end
         ++ match ChatInterface.data message with
            | Some d =>
                match ResultsDisplay.ResultsDisplay (Some d) st with
                | Some v => [Embedded v]
                | None => []
                end
            | None => []
            end) ].

End WithHost.
End ChatMessage.

(* ================================================================== *)
(** * The QuickQueries component                                      *)
(* ================================================================== *)

Module QuickQueries.

Definition doubleQuote : string := String (ascii_of_nat 34) EmptyString.

Record Category := {
  category : string;
  icon : string;
  queries : list string
}.

Definition quickQueries : list Category :=
  [ {| category := "Search Queries"; icon := "Search";
       queries :=
         [ "Find documents about machine learning";
           "Search for articles by author john_doe";
           ("Show me content with tag " ++ doubleQuote ++ "technology"
            ++ doubleQuote)%string;
           "Find documents created this week" ] |};
    {| category := "User Analytics"; icon := "Users";
       queries :=
         [ "How many users do we have?";
           "Show users from Engineering department";
           "List employees hired this year";
           "Find users with salary greater than 80000" ] |};
    {| category := "Product Data"; icon := "Package";
       queries :=
         [ "Count products by category";
           "Show products with low stock";
           "Find most expensive products";
           "List products created last month" ] |};
    {| category := "Order Analysis"; icon := "ShoppingCart";
       queries :=
         [ "Show recent orders";
           "Count orders by status";
           "Calculate total sales this month";
           "Find orders over $1000" ] |};
    {| category := "Analytics"; icon := "BarChart3";
       queries :=
         [ "Average salary by department";
           "Total revenue last quarter";
           "Group users by hire date";
           "Compare sales by month" ] |} ].

(** The query buttons of the expanded panel, in document order. *)
Definition buttons : list string := flat_map queries quickQueries.

(** [onClick={() => onQuickQuery(query)}] with the [handleQuickQuery]
    the parent passes in. *)
Definition click (query : string) (st : ChatInterface.State)
  : ChatInterface.State :=
  ChatInterface.handleQuickQuery query st.

End QuickQueries.

(* ================================================================== *)
(** * components/ChatInterface.js: the input area                     *)
(* ================================================================== *)

Module InputArea.
Import ChatInterface.

(** [disabled={!inputValue.trim() || isLoading}] on the send button *)
Definition sendDisabled (st : State) : bool :=
  negb (JS.truthy_string (JS.trim (inputValue st))) || isLoading st.

(** [disabled={isLoading}] on the textarea *)
Definition inputDisabled (st : State) : bool := isLoading st.

Record KeyEvent := {
  key : string;
  shiftKey : bool
}.

(** [handleKeyPress]: whether [preventDefault] was called, and what
    [handleSendMessage] did up to its [await] if it was called. *)
Definition handleKeyPress (clock : Clock) (e : KeyEvent) (st : State)
  : bool * (State * option ChatService.ChatRequest) :=
  if String.eqb (key e) "Enter" && negb (shiftKey e)
  then (true, handleSendMessage_submit clock st)
  else (false, (st, None)).

End InputArea.

(* ================================================================== *)
(** * The presenter in use: clicks on the rendered buttons            *)
(* ================================================================== *)

Module Interaction.
Import Payload ResultsDisplay.

(** Equality of [onClick] closures. *)
Definition Handler_eqb (a b : Handler) : bool :=
  match a, b with
  | OnSetViewMode m, OnSetViewMode m' => String.eqb m m'
  | OnSetShowRawData x, OnSetShowRawData y => Bool.eqb x y
  | _, _ => false
  end.

Section WithHost.
Context {host : Host}.

(** The setters are local to the component: they run only as the
    [onClick] of a button of the current render.  A click with handler
    [h] runs it when the render holds a button carrying [h]; there is
    nothing to click otherwise, and the state stays. *)
Definition click (data : option ResultEnvelope) (h : Handler) (st : State)
  : State :=
  if existsb (Handler_eqb h) (offered data st) then run h st else st.

(** [setViewMode(mode)] as the user can call it: through the button of
    that mode. *)
Definition selectMode (data : option ResultEnvelope) (mode : string)
  (st : State) : State :=
  click data (OnSetViewMode mode) st.

(** The click on the Raw Data button. *)
Definition clickRaw (data : option ResultEnvelope) (st : State) : State :=
  click data (OnSetShowRawData (negb (showRawData st))) st.

(** The states the component can be in: the initial one, and those a
    click on a rendered button leads to. *)
Inductive reachable (data : option ResultEnvelope) : State -> Prop :=
| reachable_initial : reachable data initialState
| reachable_click (st : State) (h : Handler) :
    reachable data st -> In h (offered data st) -> reachable data (run h st).

End WithHost.
End Interaction.

(* ================================================================== *)
(** * A session: typing and sending, turn after turn                  *)
(* ================================================================== *)

Module Session.
Import ChatInterface.

(** One round at the input area: the text typed into the textarea (its
    [onChange]), the clock reads of the send that follows, and what the
    network does with the request if one is made. *)
Record Round := {
  typedText : string;
  before : Clock;
  after : Clock;
  net : ChatService.Transport Payload.ChatResponse
}.

(** Typing, then a whole call of [handleSendMessage]. *)
Definition round (st : State) (r : Round) : State :=
  fst (handleSendMessage (before r) (after r) (net r)
         (setInputValue (typedText r) st)).

Definition session (rounds : list Round) (st : State) : State :=
  fold_left round rounds st.

(** A log of complete turns: user message, assistant message, user
    message, assistant message, and so on.  [expectUser] tells whose
    message comes next; a log may only end where a user message would
    come. *)
Fixpoint turnsFrom (expectUser : bool) (log : list Message) : bool :=
  match log with
  | [] => expectUser
  | m :: rest =>
      match type m, expectUser with
      | user, true => turnsFrom false rest
      | bot, false => turnsFrom true rest
      | _, _ => false
      end
  end.

Definition completeTurns (log : list Message) : bool := turnsFrom true log.

End Session.

(* ================================================================== *)
(** * More sample inputs                                              *)
(* ================================================================== *)

Module Scenarios.
Import Payload.

(** The network answers the sample question. *)
Definition answered : ChatService.AxiosResponse ChatResponse :=
  {| ChatService.status := 200; ChatService.payload := Samples.reply |}.

(** The input as typed, blanks around it. *)
Definition padded : ChatInterface.State :=
  ChatInterface.setInputValue "  Count all products " Samples.fresh.

Definition bucket (name : string) (n : float) : Bucket.t :=
  {| Bucket.key := AString name; Bucket.count := n |}.

Definition eightBuckets : list Bucket.t :=
  [ bucket "a" 8; bucket "b" 7; bucket "c" 6; bucket "d" 5;
    bucket "e" 4; bucket "f" 3; bucket "g" 2; bucket "h" 1 ].

Definition tenRows : list row :=
  map (fun n => [("id", SNum n)])
    [1; 2; 3; 4; 5; 6; 7; 8; 9; 10]%float.

Definition eleventh : row := [("id", SNum 11); ("late", SStr "x")].

(** The envelope with its [results] replaced. *)
Definition withResults (d : ResultEnvelope) (rs : list row) : ResultEnvelope :=
  {| total_results := total_results d; sources := sources d;
     summary := summary d; aggregations := aggregations d;
     results := Some rs; timeline := timeline d; metadata := metadata d |}.

Definition routed : QueryInfo :=
  {| intent := Some "count_by_status";
     entities := Some ["orders"; "status"];
     routing := Some {| use_elasticsearch := false; use_postgresql := true |} |}.

(** A time format for the samples: the time value in decimal. *)
Definition clockTime (tv : Z) : string := Reference.natural tv.

End Scenarios.

(* ================================================================== *)
(** * Facts about the runtime fragment                                *)
(* ================================================================== *)

Section StringFacts.

Lemma trimStart_blank (s : string) :
  ChatInterface.whitespaceOnly s -> JS.trimStart s = "".
Proof.
  unfold ChatInterface.whitespaceOnly.
  induction s as [|c rest IH]; simpl; intros Hall.
  - reflexivity.
  - inversion Hall as [|? ? Hc Hrest]; subst.
    rewrite Hc. now apply IH.
Qed.

Lemma trimStart_blank_inv (s : string) :
  ChatInterface.whitespaceOnly (JS.trimStart s) -> ChatInterface.whitespaceOnly s.
Proof.
  unfold ChatInterface.whitespaceOnly.
  induction s as [|c rest IH]; simpl; intros Hall.
  - constructor.
  - destruct (JS.isWhiteSpace c) eqn:Hc.
    + constructor; [exact Hc | now apply IH].
    + exact Hall.
Qed.

Lemma trimEnd_empty_inv (s : string) :
  JS.trimEnd s = "" -> ChatInterface.whitespaceOnly s.
Proof.
  unfold ChatInterface.whitespaceOnly.
  induction s as [|c rest IH]; simpl; intros Hnil.
  - constructor.
  - destruct (JS.trimEnd rest) eqn:Hrest.
    + destruct (JS.isWhiteSpace c) eqn:Hc; [|discriminate].
      constructor; [exact Hc | now apply IH].
    + discriminate.
Qed.

(** [trim] leaves nothing exactly of the strings made of white space. *)
Lemma trim_empty_iff (s : string) :
  JS.trim s = "" <-> ChatInterface.whitespaceOnly s.
Proof.
  unfold JS.trim. split.
  - intros Hnil. apply trimStart_blank_inv. now apply trimEnd_empty_inv.
  - intros Hall. now rewrite (trimStart_blank s Hall).
Qed.


Lemma substring0_length (n : nat) (s : string) :
  String.length (JS.substring0 n s) = Nat.min n (String.length s).
Proof.
  unfold JS.substring0. revert n.
  induction s as [|c rest IH]; intros [|n]; simpl; try reflexivity.
  now rewrite IH.
Qed.

End StringFacts.

(* ================================================================== *)
(** * The gateway client                                              *)
(* ================================================================== *)

Section ChatServiceFacts.
Import ChatService.

Lemma code_is_true (error : AxiosError) (c : string) :
  code_is error c = true <-> code error = Some c.
Proof.
  unfold code_is. destruct (code error) as [c'|].
  - rewrite String.eqb_eq. split; congruence.
  - split; discriminate.
Qed.

Lemma status_is_true (error : AxiosError) (n : Z) :
  status_is error n = true <-> response_status error = Some n.
Proof.
  unfold status_is. destruct (response_status error) as [s|].
  - rewrite Z.eqb_eq. split; congruence.
  - split; discriminate.
Qed.

Lemma code_is_false (error : AxiosError) (c : string) :
  code error <> Some c -> code_is error c = false.
Proof.
  intros Hne. destruct (code_is error c) eqn:Hc; [|reflexivity].
  apply code_is_true in Hc. contradiction.
Qed.

Lemma status_is_false (error : AxiosError) (n : Z) :
  response_status error <> Some n -> status_is error n = false.
Proof.
  intros Hne. destruct (status_is error n) eqn:Hs; [|reflexivity].
  apply status_is_true in Hs. contradiction.
Qed.

(** The interceptor's failure side always throws, and what it throws is
    decided by the three tests in their order. *)
Lemma responseRejected_outcome {A} (error : AxiosError) :
  outcome (@responseRejected A error)
  = JS.Throw
      (if code_is error "ECONNREFUSED" then Unreachable
       else if status_is error 500 then ServerError
       else if status_is error 404 then NotFound
       else Original error).
Proof.
  unfold responseRejected, outcome, bind, log, throw. simpl.
  destruct (code_is error "ECONNREFUSED"); [reflexivity|].
  destruct (status_is error 500); [reflexivity|].
  destruct (status_is error 404); reflexivity.
Qed.

(** A request that axios rejects throws what the interceptor throws. *)
Lemma apiClient_request_rejected {A} (config : Config) (error : AxiosError) :
  outcome (@apiClient_request A config (inr error))
  = outcome (@responseRejected (AxiosResponse A) error).
Proof.
  unfold apiClient_request, requestInterceptor, outcome, bind, log, ret. simpl.
  destruct (responseRejected error) as [out r]. reflexivity.
Qed.

(** The [catch] of a service method logs and rethrows the same value. *)
Lemma logged_rethrows {A} (label : string) (m : IO (AxiosResponse A)) (t : Thrown) :
  outcome m = JS.Throw t -> outcome (logged label m) = JS.Throw t.
Proof.
  unfold logged, outcome, catch, bind, log, throw, ret.
  destruct m as [out [r|t']]; simpl; intros Hm; [discriminate|].
  now inversion Hm.
Qed.

Lemma logged_returns {A} (label : string) (m : IO (AxiosResponse A))
  (r : AxiosResponse A) :
  outcome m = JS.Normal r -> outcome (logged label m) = JS.Normal (payload r).
Proof.
  unfold logged, outcome, catch, bind, ret.
  destruct m as [out [r'|t]]; simpl; intros Hm; [|discriminate].
  now inversion Hm.
Qed.

(** A method fed a rejected request throws what the interceptor threw. *)
Lemma method_rejected {A} (label : string) (config : Config)
  (error : AxiosError) (t : Thrown) :
  outcome (@responseRejected (AxiosResponse A) error) = JS.Throw t ->
  outcome (logged label (@apiClient_request A config (inr error))) = JS.Throw t.
Proof.
  intros Ht. apply logged_rethrows.
  now rewrite apiClient_request_rejected.
Qed.

(** What [sendMessage] throws when axios rejects. *)
Lemma sendMessage_rejected (msg cid : string) (error : AxiosError) :
  exists t : Thrown, outcome (sendMessage msg cid (inr error)) = JS.Throw t.
Proof.
  eexists. apply method_rejected, responseRejected_outcome.
Qed.

(** A request the network answers is returned with its payload. *)
Lemma sendMessage_answered (msg cid : string)
  (r : AxiosResponse Payload.ChatResponse) :
  outcome (sendMessage msg cid (inl r)) = JS.Normal (payload r).
Proof. reflexivity. Qed.

(** The availability probe swallows every failure. *)
Lemma checkBackendAvailability_rejected (error : AxiosError) :
  outcome (checkBackendAvailability (inr error)) = JS.Normal false.
Proof.
  unfold checkBackendAvailability, apiClient_get, outcome, catch, bind, ret.
  pose proof (@apiClient_request_rejected Payload.json
                {| method := GET; url := "/"; body := None |} error) as Hreq.
  rewrite responseRejected_outcome in Hreq. unfold outcome in Hreq.
  destruct (apiClient_request _ (inr error)) as [out [r|t]]; simpl in *.
  - discriminate.
  - reflexivity.
Qed.

(** C6, as it holds of the code.  Whatever axios rejects with, the four
    service methods all throw one and the same value [t], made in the
    response interceptor: the connection-refused error when the code is
    ECONNREFUSED; otherwise the server error when the status is exactly
    500; otherwise the not-found error when the status is 404; and in
    every other case (the other 5xx statuses included) the original
    error itself, diagnostic message and all. *)
Theorem gateway_error_taxonomy (error : AxiosError) :
  exists t : Thrown,
    (forall msg cid, outcome (sendMessage msg cid (inr error)) = JS.Throw t)
    /\ outcome (getHealth (inr error)) = JS.Throw t
    /\ outcome (getElasticsearchSchema (inr error)) = JS.Throw t
    /\ outcome (getPostgreSQLSchema (inr error)) = JS.Throw t
    /\ (code error = Some "ECONNREFUSED" -> t = Unreachable)
    /\ (code error <> Some "ECONNREFUSED" ->
        response_status error = Some 500%Z -> t = ServerError)
    /\ (code error <> Some "ECONNREFUSED" ->
        response_status error = Some 404%Z -> t = NotFound)
    /\ (code error <> Some "ECONNREFUSED" ->
        response_status error <> Some 500%Z ->
        response_status error <> Some 404%Z ->
        t = Unknown error /\ Thrown_message t = message error).
Proof.
  exists (if code_is error "ECONNREFUSED" then Unreachable
          else if status_is error 500 then ServerError
          else if status_is error 404 then NotFound
          else Original error).
  split; [|split; [|split; [|split]]];
    try (intros; apply method_rejected, responseRejected_outcome).
  split; [|split; [|split]].
  - intros Hc. apply code_is_true in Hc. now rewrite Hc.
  - intros Hc Hs. rewrite (code_is_false _ _ Hc).
    apply status_is_true in Hs. now rewrite Hs.
  - intros Hc Hs. rewrite (code_is_false _ _ Hc).
    assert (H500 : status_is error 500 = false).
    { apply status_is_false. rewrite Hs. discriminate. }
    rewrite H500. apply status_is_true in Hs. now rewrite Hs.
  - intros Hc H500 H404.
    rewrite (code_is_false _ _ Hc), (status_is_false _ _ H500),
      (status_is_false _ _ H404).
    split; reflexivity.
Qed.

(** C6 as stated fails at HTTP 503: the status is in the 5xx range, yet
    the caller catches the original axios error, not the server
    error. *)
Lemma status_503_passes_through :
  Specification.is5xx 503
  /\ response_status Samples.unavailable = Some 503%Z
  /\ outcome (sendMessage "How many users do we have?" "default"
                (inr Samples.unavailable))
     = JS.Throw (Unknown Samples.unavailable)
  /\ Unknown Samples.unavailable <> ServerError.
Proof.
  split; [unfold Specification.is5xx; lia|].
  split; [reflexivity|].
  split; [reflexivity|discriminate].
Qed.

End ChatServiceFacts.

(** The taxonomy on the sample errors. *)
Example refused_is_Unreachable :
  ChatService.outcome (ChatService.getHealth (inr Samples.refused))
  = JS.Throw ChatService.Unreachable.
Proof. reflexivity. Qed.

Example status_500_is_ServerError :
  ChatService.outcome (ChatService.getHealth (inr Samples.internalError))
  = JS.Throw ChatService.ServerError.
Proof. reflexivity. Qed.

Example status_404_is_NotFound :
  ChatService.outcome (ChatService.getPostgreSQLSchema (inr Samples.missing))
  = JS.Throw ChatService.NotFound.
Proof. reflexivity. Qed.

Example timeout_is_Unknown :
  ChatService.outcome
    (ChatService.sendMessage "Count all products" "default" (inr Samples.timedOut))
  = JS.Throw (ChatService.Unknown Samples.timedOut).
Proof. reflexivity. Qed.

(** The console of a failed [sendMessage]: the request, the
    interceptor's report, the method's report. *)
Example failed_sendMessage_console :
  ChatService.console
    (ChatService.sendMessage "Count all products" "default" (inr Samples.missing))
  = [ ChatService.console_log "API Request:"
        [ChatService.ArgString "POST"; ChatService.ArgString "/chat"];
      ChatService.console_error "API Response Error:"
        [ChatService.ArgStatus (Some 404%Z);
         ChatService.ArgString "Request failed with status code 404"];
      ChatService.console_error "Chat service error:"
        [ChatService.ArgThrown ChatService.NotFound] ].
Proof. reflexivity. Qed.

(* ================================================================== *)
(** * The conversation state machine                                  *)
(* ================================================================== *)

Section ChatInterfaceFacts.
Import ChatInterface.

(** The guard of [handleSendMessage], as a proposition. *)
Lemma guard_rejects (st : State) :
  negb (JS.truthy_string (JS.trim (inputValue st))) || isLoading st = true
  <-> whitespaceOnly (inputValue st) \/ isLoading st = true.
Proof.
  rewrite orb_true_iff, <- trim_empty_iff.
  destruct (JS.trim (inputValue st)); simpl; intuition discriminate.
Qed.

(** An accepted submit: one user message with the text as typed, the
    input cleared, the loading flag set, and one request. *)
Lemma submit_accepted (clock : Clock) (st : State) :
  ~ whitespaceOnly (inputValue st) -> isLoading st = false ->
  handleSendMessage_submit clock st
  = ({| messages := messages st ++ [userMessage clock (inputValue st)];
        inputValue := "";
        isLoading := true |},
     Some {| ChatService.req_message := inputValue st;
             ChatService.req_conversation_id := "default" |}).
Proof.
  intros Htext Hidle. unfold handleSendMessage_submit.
  destruct (negb (JS.truthy_string (JS.trim (inputValue st))) || isLoading st)
    eqn:Hguard.
  - apply guard_rejects in Hguard. destruct Hguard; [contradiction|congruence].
  - reflexivity.
Qed.

(** On success the reply is appended with its envelope. *)
Lemma settle_success (clock : Clock) (r : Payload.ChatResponse) (st : State) :
  handleSendMessage_settle clock (JS.Normal r) st
  = ({| messages := messages st ++ [botMessage clock r];
        inputValue := inputValue st;
        isLoading := false |}, []).
Proof. reflexivity. Qed.

(** A whole call whose request axios rejects: after the accepted submit
    the log holds the user message and then the apology, and the
    component is idle again. *)
Lemma rejected_call (before after : Clock) (err : ChatService.AxiosError)
  (st : State) :
  ~ whitespaceOnly (inputValue st) -> isLoading st = false ->
  fst (handleSendMessage before after (inr err) st)
  = {| messages := messages st ++ [userMessage before (inputValue st);
                                   errorMessage after];
       inputValue := "";
       isLoading := false |}.
Proof.
  intros Htext Hidle. unfold handleSendMessage.
  rewrite (submit_accepted before st Htext Hidle). cbv zeta.
  cbn [ChatService.req_message ChatService.req_conversation_id].
  destruct (sendMessage_rejected (inputValue st) conversationId err) as [t Ht].
  fold conversationId.
  rewrite Ht. cbn. unfold setIsLoading, appendMessage. cbn.
  now rewrite <- app_assoc.
Qed.

(** C1.  Whatever the service threw, settling the turn appends exactly
    one message: a bot message flagged as an error, carrying the fixed
    apology and neither envelope nor query info.  The loading flag is
    cleared.  The resulting state is the same for every thrown value:
    the error is written to the console only.  So a whole call whose
    request axios rejects, for whatever reason (a time-out is one),
    leaves the user message followed by the apology. *)
Theorem failure_appends_apology (clock : Clock) (e : ChatService.Thrown)
  (st : State) :
  exists m : Message,
    messages (fst (handleSendMessage_settle clock (JS.Throw e) st))
    = messages st ++ [m]
    /\ type m = bot
    /\ error m = true
    /\ content m = apology
    /\ data m = None
    /\ queryInfo m = None
    /\ isLoading (fst (handleSendMessage_settle clock (JS.Throw e) st)) = false
    /\ (forall e' : ChatService.Thrown,
          fst (handleSendMessage_settle clock (JS.Throw e') st)
          = fst (handleSendMessage_settle clock (JS.Throw e) st))
    /\ snd (handleSendMessage_settle clock (JS.Throw e) st)
       = [ChatService.console_error "Chat error:" [ChatService.ArgThrown e]]
    /\ (forall (before : Clock) (err : ChatService.AxiosError) (st0 : State),
          ~ whitespaceOnly (inputValue st0) -> isLoading st0 = false ->
          fst (handleSendMessage before clock (inr err) st0)
          = {| messages := messages st0
                           ++ [userMessage before (inputValue st0); m];
               inputValue := "";
               isLoading := false |}).
Proof.
  exists (errorMessage clock). simpl.
  do 8 (split; [reflexivity|]).
  split; [reflexivity|].
  intros before err st0 Htext Hidle.
  exact (rejected_call before clock err st0 Htext Hidle).
Qed.

End ChatInterfaceFacts.

Section SubmitGuard.
Import ChatInterface.

(** C2.  With an input that is empty or white space only, or while a
    turn is in flight, [handleSendMessage] returns at its guard: the
    state (message log, input, loading flag) is the one it found, no
    request is handed to the service, and the whole call, however the
    network would have answered, changes nothing and logs nothing.  The
    state has no place where a request could wait. *)
Theorem submit_rejected (clock : Clock) (st : State) :
  whitespaceOnly (inputValue st) \/ isLoading st = true ->
  handleSendMessage_submit clock st = (st, None)
  /\ (forall (after : Clock) (net : ChatService.Transport Payload.ChatResponse),
        handleSendMessage clock after net st = (st, [])).
Proof.
  intros Hrej. apply guard_rejects in Hrej.
  assert (Hsubmit : handleSendMessage_submit clock st = (st, None)).
  { unfold handleSendMessage_submit. now rewrite Hrej. }
  split; [exact Hsubmit|].
  intros after net. unfold handleSendMessage. now rewrite Hsubmit.
Qed.

Lemma submit_rejected_witness :
  (handleSendMessage_submit Samples.noon Samples.blankInput
   = (Samples.blankInput, None)
   /\ (forall after net,
         handleSendMessage Samples.noon after net Samples.blankInput
         = (Samples.blankInput, [])))
  /\ (handleSendMessage_submit Samples.later Samples.sending
      = (Samples.sending, None)
      /\ (forall after net,
            handleSendMessage Samples.later after net Samples.sending
            = (Samples.sending, []))).
Proof.
  split.
  - apply (submit_rejected Samples.noon Samples.blankInput).
    left. repeat constructor.
  - apply (submit_rejected Samples.later Samples.sending).
    right. reflexivity.
Defined.

End SubmitGuard.

(** A full turn on the samples: the question, then the apology. *)
Example timed_out_turn :
  map ChatInterface.content
    (ChatInterface.messages
       (fst (ChatInterface.handleSendMessage Samples.noon Samples.later
               (inr Samples.timedOut) Samples.typed)))
  = [ChatInterface.greeting; "How many users do we have?"; ChatInterface.apology]
  /\ ChatInterface.isLoading
       (fst (ChatInterface.handleSendMessage Samples.noon Samples.later
               (inr Samples.timedOut) Samples.typed)) = false.
Proof. split; reflexivity. Qed.

(* ================================================================== *)
(** * The table view                                                  *)
(* ================================================================== *)

Section Columns.
Import Payload ResultsDisplay Specification.

Lemma Set_has_app (s : JS.StringSet) (k name : string) :
  JS.Set_has (s ++ [k]) name = JS.Set_has s name || String.eqb name k.
Proof.
  unfold JS.Set_has. rewrite existsb_app. simpl. now rewrite orb_false_r.
Qed.

Lemma Set_has_In (s : JS.StringSet) (name : string) :
  JS.Set_has s name = true <-> In name s.
Proof.
  unfold JS.Set_has. rewrite existsb_exists. split.
  - intros [x [Hin Heq]]. apply String.eqb_eq in Heq. now subst.
  - intros Hin. exists name. split; [exact Hin | apply String.eqb_refl].
Qed.

(** The two nested [forEach] loops visit the keys of all rows in row
    order. *)
Lemma addRowKeys_flat (rows : list row) (acc : JS.StringSet) :
  fold_left addRowKeys rows acc
  = fold_left
      (fun acc key => if negb (JS.startsWith key "_") then JS.Set_add acc key
                      else acc)
      (flat_map Object_keys rows) acc.
Proof.
  revert acc. induction rows as [|r rows IH]; intros acc; simpl.
  - reflexivity.
  - rewrite fold_left_app. apply IH.
Qed.

(** Skipping the private names inside the loop is filtering them out
    before it. *)
Lemma skip_private (names : list string) (acc : JS.StringSet) :
  fold_left
    (fun acc key => if negb (JS.startsWith key "_") then JS.Set_add acc key
                    else acc)
    names acc
  = fold_left JS.Set_add (filter isPublic names) acc.
Proof.
  revert acc. induction names as [|k names IH]; intros acc; simpl.
  - reflexivity.
  - unfold isPublic at 1. destruct (negb (JS.startsWith k "_")); simpl; apply IH.
Qed.

Lemma filter_twice {A} (f g : A -> bool) (l : list A) :
  filter f (filter g l) = filter (fun x => g x && f x) l.
Proof.
  induction l as [|x l IH]; simpl; [reflexivity|].
  destruct (g x); simpl; [destruct (f x)|]; now rewrite IH.
Qed.

(** Adding names one by one to a [Set] keeps the members it had and
    appends the new ones, each once, where it is first seen. *)
Lemma Set_add_all (names : list string) (acc : JS.StringSet) :
  fold_left JS.Set_add names acc
  = acc ++ filter (fun name => negb (JS.Set_has acc name)) (firstSeen names).
Proof.
  revert acc. induction names as [|k names IH]; intros acc; simpl.
  - now rewrite app_nil_r.
  - unfold JS.Set_add at 2. destruct (JS.Set_has acc k) eqn:Hk; simpl.
    + rewrite IH. f_equal.
      rewrite filter_twice. apply filter_ext. intros name.
      destruct (String.eqb name k) eqn:Heq; simpl; [|reflexivity].
      apply String.eqb_eq in Heq. subst. now rewrite Hk.
    + rewrite IH, <- app_assoc. simpl. do 2 f_equal.
      rewrite filter_twice. apply filter_ext. intros name.
      rewrite Set_has_app, negb_orb. apply andb_comm.
Qed.

(** [getTableColumns] computes the first six distinct public names. *)
Lemma getTableColumns_firstSeen (rows : list row) :
  getTableColumns rows = firstn 6 (firstSeen (publicNames rows)).
Proof.
  unfold getTableColumns, JS.slice0, JS.Array_from, publicNames.
  destruct rows as [|r rows]; [reflexivity|].
  cbn [length Nat.eqb].
  rewrite addRowKeys_flat, skip_private, Set_add_all. cbn [app].
  f_equal. rewrite <- (filter_ext (fun _ => true)) by reflexivity.
  clear. induction (firstSeen _) as [|x l IH]; simpl; [reflexivity|].
  now rewrite IH.
Qed.

Lemma firstSeen_In (names : list string) (x : string) :
  In x (firstSeen names) <-> In x names.
Proof.
  induction names as [|k names IH]; simpl; [tauto|].
  rewrite filter_In, IH, negb_true_iff. split.
  - intros [Heq | [Hin _]]; auto.
  - intros [Heq | Hin]; [now left|].
    destruct (String.eqb x k) eqn:Hx.
    + apply String.eqb_eq in Hx. now left.
    + right. now split.
Qed.

Lemma firstSeen_NoDup (names : list string) : NoDup (firstSeen names).
Proof.
  induction names as [|k names IH]; simpl; constructor.
  - rewrite filter_In, String.eqb_refl. simpl. intros [_ Hf]. discriminate.
  - now apply NoDup_filter.
Qed.

Lemma firstn_In {A} (n : nat) (l : list A) (x : A) :
  In x (firstn n l) -> In x l.
Proof.
  revert n. induction l as [|y l IH]; intros [|n]; simpl; try tauto.
  intros [Heq | Hin]; [now left | right; eauto].
Qed.

Lemma firstn_NoDup {A} (n : nat) (l : list A) :
  NoDup l -> NoDup (firstn n l).
Proof.
  revert n. induction l as [|y l IH]; intros [|n] Hnd; simpl;
    try constructor.
  - inversion Hnd; subst. intros Hin. apply firstn_In in Hin. contradiction.
  - inversion Hnd; subst. now apply IH.
Qed.

Lemma publicNames_In (rows : list row) (x : string) :
  In x (publicNames rows)
  <-> (exists r, In r rows /\ In x (Object_keys r)) /\ JS.startsWith x "_" = false.
Proof.
  unfold publicNames, isPublic.
  rewrite filter_In, in_flat_map, negb_true_iff. reflexivity.
Qed.

End Columns.

(* ================================================================== *)
(** * Searching a rendered tree                                       *)
(* ================================================================== *)

Section TreeFacts.
Import Payload ResultsDisplay.

Lemma flat_map_none {A B} (f : A -> list B) (l : list A) :
  (forall x, In x l -> f x = []) -> flat_map f l = [].
Proof.
  induction l as [|x l IH]; simpl; intros Hf; [reflexivity|].
  rewrite (Hf x) by now left. apply IH. intros y Hy. apply Hf. now right.
Qed.

Lemma flat_map_map_none {A B C} (f : B -> list C) (g : A -> B) (l : list A) :
  (forall x, f (g x) = []) -> flat_map f (map g l) = [].
Proof.
  intros Hf. apply flat_map_none. intros y Hy.
  apply in_map_iff in Hy. destruct Hy as [x [<- _]]. apply Hf.
Qed.

Lemma flat_map_map_self {A B} (f : B -> list B) (g : A -> B) (l : list A) :
  (forall x, f (g x) = [g x]) -> flat_map f (map g l) = map g l.
Proof.
  intros Hf. induction l as [|x l IH]; simpl; [reflexivity|].
  now rewrite Hf, IH.
Qed.

Lemma handlers_jsx_string (s : string) : flat_map handlers (jsx_string s) = [].
Proof. destruct s; reflexivity. Qed.

Lemma byTag_jsx_string (tag s : string) :
  flat_map (byTag tag) (jsx_string s) = [].
Proof. destruct s; reflexivity. Qed.

Lemma byClass_jsx_string (cls s : string) :
  flat_map (byClass cls) (jsx_string s) = [].
Proof. destruct s; reflexivity. Qed.

Lemma textContent_jsx_string (s : string) :
  String.concat "" (map textContent (jsx_string s)) = s.
Proof. destruct s; reflexivity. Qed.

Lemma handlers_jsx_when (cond : bool) (element : list vnode) :
  flat_map handlers element = [] ->
  flat_map handlers (jsx_when cond element) = [].
Proof. destruct cond; simpl; auto. Qed.

End TreeFacts.

Section TableFacts.
Import Payload ResultsDisplay Specification.
Context {host : Host}.

Lemma byTag_th_header (columns : list string) :
  flat_map (byTag "th") (map renderHeaderCell columns)
  = map renderHeaderCell columns.
Proof.
  apply flat_map_map_self. intros col. unfold renderHeaderCell. simpl.
  now rewrite byTag_jsx_string.
Qed.

(** A body row holds cells and text only. *)
Lemma byTag_in_row (tag : string) (columns : list string) (r : row) :
  String.eqb "td" tag = false ->
  flat_map (byTag tag) (map (renderCell r) columns) = [].
Proof.
  intros Htd. apply flat_map_map_none. intros col.
  unfold renderCell. cbn [byTag]. rewrite Htd. apply byTag_jsx_string.
Qed.

Lemma byTag_th_body (columns : list string) (rows : list row) :
  flat_map (byTag "th") (map (renderRow columns) rows) = [].
Proof.
  apply flat_map_map_none. intros r. unfold renderRow. simpl.
  now apply byTag_in_row.
Qed.

Lemma byTag_tr_body (columns : list string) (rows : list row) :
  flat_map (byTag "tr") (map (renderRow columns) rows)
  = map (renderRow columns) rows.
Proof.
  apply flat_map_map_self. intros r. unfold renderRow. simpl.
  now rewrite byTag_in_row.
Qed.

Lemma byTag_tbody_header (columns : list string) :
  flat_map (byTag "tbody") (map renderHeaderCell columns) = [].
Proof.
  apply flat_map_map_none. intros col. unfold renderHeaderCell. simpl.
  apply byTag_jsx_string.
Qed.

Lemma byTag_tbody_body (columns : list string) (rows : list row) :
  flat_map (byTag "tbody") (map (renderRow columns) rows) = [].
Proof.
  apply flat_map_map_none. intros r. unfold renderRow. simpl.
  now apply byTag_in_row.
Qed.

(** The header cells of the rendered table are the columns, in order;
    without rows there is no table and there are no columns. *)
Lemma renderTable_header (d : ResultEnvelope) :
  flat_map (byTag "th") (renderTable d)
  = map renderHeaderCell (tableColumns (rowsOf d)).
Proof.
  unfold renderTable, rowsOf, tableColumns.
  destruct (results d) as [[|r rows]|]; try reflexivity.
  cbn -[tableRows getTableColumns].
  rewrite byTag_th_header, byTag_th_body. now rewrite !app_nil_r.
Qed.

(** The body of the rendered table has one row per displayed row. *)
Lemma renderTable_body (d : ResultEnvelope) :
  flat_map (byTag "tr") (flat_map (byTag "tbody") (renderTable d))
  = map (renderRow (tableColumns (rowsOf d))) (tableRows (rowsOf d)).
Proof.
  unfold renderTable, rowsOf, tableColumns.
  destruct (results d) as [[|r rows]|]; try reflexivity.
  cbn -[tableRows getTableColumns].
  rewrite byTag_tbody_header, byTag_tbody_body.
  cbn -[tableRows getTableColumns].
  rewrite byTag_tr_body. now rewrite !app_nil_r.
Qed.

(** C3.  The table shows the first 10 rows of [results] and no more.
    Its columns are the distinct field names of those rows that do not
    begin with an underscore, in the order in which the rows first show
    them, cut after the sixth: at most 6, without repetition, each a
    public field of a displayed row, and in no other order (no sorting
    takes place).  The rendered table has exactly these header cells
    and one body row per displayed row. *)
Theorem table_rows_and_columns (d : ResultEnvelope) :
  tableRows (rowsOf d) = firstn 10 (rowsOf d)
  /\ length (tableRows (rowsOf d)) <= 10
  /\ tableColumns (rowsOf d) = columnSet (rowsOf d)
  /\ length (tableColumns (rowsOf d)) <= 6
  /\ NoDup (tableColumns (rowsOf d))
  /\ (forall c, In c (tableColumns (rowsOf d)) ->
        (exists r, In r (firstn 10 (rowsOf d)) /\ In c (Object_keys r))
        /\ JS.startsWith c "_" = false)
  /\ flat_map (byTag "th") (renderTable d)
     = map renderHeaderCell (tableColumns (rowsOf d))
  /\ flat_map (byTag "tr") (flat_map (byTag "tbody") (renderTable d))
     = map (renderRow (tableColumns (rowsOf d))) (tableRows (rowsOf d)).
Proof.
  assert (Hcols : tableColumns (rowsOf d) = columnSet (rowsOf d)).
  { unfold tableColumns, columnSet, tableRows, JS.slice0.
    apply getTableColumns_firstSeen. }
  split; [reflexivity|].
  split; [apply firstn_le_length|].
  split; [exact Hcols|].
  rewrite Hcols. unfold columnSet.
  split; [apply firstn_le_length|].
  split; [apply firstn_NoDup, firstSeen_NoDup|].
  split.
  - intros c Hc. apply firstn_In in Hc.
    apply (proj1 (firstSeen_In _ _)) in Hc.
    now apply (proj1 (publicNames_In _ _)) in Hc.
  - fold (columnSet (rowsOf d)). rewrite <- Hcols.
    split; [apply renderTable_header | apply renderTable_body].
Qed.

End TableFacts.

(** The order of the columns is the order of first appearance, not the
    alphabetical one, and private fields are left out. *)
Example columns_in_first_seen_order :
  ResultsDisplay.tableColumns [Samples.alice; Samples.bob]
  = ["name"; "id"; "salary"; "hired_at"; "employer"].
Proof. reflexivity. Qed.

(* ================================================================== *)
(** * Cell formatting                                                 *)
(* ================================================================== *)

Section CellFacts.
Import Payload ResultsDisplay.
Context {host : Host}.

(** Rule 1: [null] and absent cells show a dash. *)
Lemma formatCellValue_missing (column : string) :
  formatCellValue None column = "-"
  /\ formatCellValue (Some SNull) column = "-".
Proof. split; reflexivity. Qed.

(** Rule 2: a string holding both [T] and [Z] goes through [Date]. *)
Lemma formatCellValue_dateLike (s column : string) :
  JS.includes s "T" = true -> JS.includes s "Z" = true ->
  formatCellValue (Some (SStr s)) column
  = JSDate.toLocaleDateString (JSDate.new_Date s).
Proof.
  intros HT HZ. unfold formatCellValue, SStr. cbn [isString stringOf andb].
  now rewrite HT, HZ.
Qed.

Lemma formatCellValue_parsed (s column : string) (tv : Z) :
  JS.includes s "T" = true -> JS.includes s "Z" = true ->
  Date_parse s = Some tv ->
  formatCellValue (Some (SStr s)) column = Date_toLocaleDateString tv.
Proof.
  intros HT HZ Hparse. rewrite (formatCellValue_dateLike s column HT HZ).
  unfold JSDate.toLocaleDateString, JSDate.new_Date. now rewrite Hparse.
Qed.

(** Rule 3 on numbers: in a price or salary column a number is shown
    as a dollar sign and its locale form. *)
Lemma formatCellValue_money (n : float) (column : string) :
  JS.includes column "price" || JS.includes column "salary" = true ->
  formatCellValue (Some (SNum n)) column = ("$" ++ Number_toLocaleString n)%string.
Proof.
  intros Hcol. unfold formatCellValue, SNum.
  cbn [isString isNumber stringOf andb]. rewrite Hcol. reflexivity.
Qed.

(** Elsewhere a number is shown by [toString]. *)
Lemma formatCellValue_number (n : float) (column : string) :
  JS.includes column "price" || JS.includes column "salary" = false ->
  formatCellValue (Some (SNum n)) column = Number_toString n.
Proof.
  intros Hcol. unfold formatCellValue, SNum.
  cbn [isString isNumber stringOf andb]. rewrite Hcol. reflexivity.
Qed.

(** Rules 4 and 5 on strings outside salary columns. *)
Lemma formatCellValue_text (s column : string) :
  JS.includes s "T" && JS.includes s "Z" = false ->
  JS.includes column "salary" = false ->
  formatCellValue (Some (SStr s)) column
  = if (50 <? String.length s)%nat then (JS.substring0 50 s ++ "...")%string
    else s.
Proof.
  intros Hdate Hcol. unfold formatCellValue, SStr.
  cbn [isString isNumber stringOf andb toString]. rewrite Hdate, Hcol.
  reflexivity.
Qed.

(** C4, where the code departs from it.  In a column whose name
    contains [salary], a value that is not a number is given the
    currency form all the same: a string that is not date-like comes
    out with a dollar sign in front (and is not cut at 50 characters),
    and so does a boolean.  The test [number && price || salary] asks
    for a number only on the [price] side. *)
Theorem salary_column_prefixes_non_numbers (column : string) :
  JS.includes column "salary" = true ->
  (forall s : string,
      JS.includes s "T" && JS.includes s "Z" = false ->
      formatCellValue (Some (SStr s)) column = ("$" ++ s)%string)
  /\ formatCellValue (Some (SBool true)) column = "$true"
  /\ formatCellValue (Some (SBool false)) column = "$false".
Proof.
  intros Hcol. unfold formatCellValue, SStr, SBool.
  cbn [isString isNumber stringOf andb toLocaleString toString].
  rewrite Hcol, orb_true_r. split; [|split; reflexivity].
  intros s Hdate. now rewrite Hdate.
Qed.

(** C5, where the code departs from it.  A string that holds a [T] and
    a [Z] but is not a date comes out as the text [Invalid Date]: the
    [Date] constructor does not throw, so the [catch] that would have
    returned the original string is never entered.  The result is
    never the original string. *)
Theorem unparsable_date_shows_Invalid_Date (s column : string) :
  JS.includes s "T" = true -> JS.includes s "Z" = true ->
  Date_parse s = None ->
  formatCellValue (Some (SStr s)) column = "Invalid Date"
  /\ formatCellValue (Some (SStr s)) column <> s.
Proof.
  intros HT HZ Hparse.
  assert (Hout : formatCellValue (Some (SStr s)) column = "Invalid Date").
  { rewrite (formatCellValue_dateLike s column HT HZ).
    unfold JSDate.toLocaleDateString, JSDate.new_Date. now rewrite Hparse. }
  split; [exact Hout|].
  rewrite Hout. intros Heq. subst s. discriminate HT.
Qed.

End CellFacts.

Lemma salary_column_prefixes_non_numbers_witness :
  (forall s : string,
      JS.includes s "T" && JS.includes s "Z" = false ->
      ResultsDisplay.formatCellValue (host := Reference.host)
        (Some (Payload.SStr s)) "salary" = ("$" ++ s)%string)
  /\ ResultsDisplay.formatCellValue (host := Reference.host)
       (Some (Payload.SBool true)) "salary" = "$true"
  /\ ResultsDisplay.formatCellValue (host := Reference.host)
       (Some (Payload.SBool false)) "salary" = "$false".
Proof.
  apply (salary_column_prefixes_non_numbers (host := Reference.host) "salary").
  reflexivity.
Defined.

Lemma unparsable_date_shows_Invalid_Date_witness :
  ResultsDisplay.formatCellValue (host := Reference.host)
    (Some (Payload.SStr "ZTE Corporation")) "employer" = "Invalid Date"
  /\ ResultsDisplay.formatCellValue (host := Reference.host)
       (Some (Payload.SStr "ZTE Corporation")) "employer" <> "ZTE Corporation".
Proof.
  apply (unparsable_date_shows_Invalid_Date (host := Reference.host)
           "ZTE Corporation" "employer"); reflexivity.
Defined.

(** The cells of the sample rows under the reference host. *)
Example salary_number_cell :
  ResultsDisplay.formatCellValue (host := Reference.host)
    (Payload.getField Samples.alice "salary") "salary" = "$87,234.5".
Proof. vm_compute. reflexivity. Qed.

Example salary_text_cell :
  ResultsDisplay.formatCellValue (host := Reference.host)
    (Payload.getField Samples.bob "salary") "salary" = "$85000.00".
Proof. vm_compute. reflexivity. Qed.

Example date_cell :
  ResultsDisplay.formatCellValue (host := Reference.host)
    (Payload.getField Samples.alice "hired_at") "hired_at" = "1/15/2024".
Proof. vm_compute. reflexivity. Qed.

Example employer_cell :
  ResultsDisplay.formatCellValue (host := Reference.host)
    (Payload.getField Samples.bob "employer") "employer" = "Invalid Date".
Proof. vm_compute. reflexivity. Qed.

Example absent_cell :
  ResultsDisplay.formatCellValue (host := Reference.host)
    (Payload.getField Samples.bob "hired_at") "hired_at" = "-".
Proof. reflexivity. Qed.

(* ================================================================== *)
(** * The presenter: buttons, modes and the raw toggle                *)
(* ================================================================== *)

Section ButtonFacts.
Import Payload ResultsDisplay Specification.
Context {host : Host}.

(** None of the views holds a button: the only buttons of the
    component are its mode buttons and the raw toggle. *)
Lemma handlers_renderBucket (b : Bucket.t) : handlers (renderBucket b) = [].
Proof.
  unfold renderBucket, jsx_atom. simpl.
  destruct (Bucket.key b) as [s|n]; [destruct s|]; reflexivity.
Qed.

Lemma handlers_renderMetric (entry : string * metric) :
  handlers (renderMetric entry) = [].
Proof.
  destruct entry as [key [v|buckets]]; unfold renderMetric; simpl;
    rewrite handlers_jsx_string; simpl.
  - now rewrite handlers_jsx_string.
  - now rewrite (flat_map_map_none handlers renderBucket _ handlers_renderBucket).
Qed.

Lemma handlers_renderAggregationSource
  (entry : string * list (string * metric)) :
  handlers (renderAggregationSource entry) = [].
Proof.
  destruct entry as [source aggs]. unfold renderAggregationSource. simpl.
  rewrite handlers_jsx_string. simpl.
  now rewrite (flat_map_map_none handlers renderMetric _ handlers_renderMetric).
Qed.

Lemma handlers_renderAggregations (d : ResultEnvelope) :
  flat_map handlers (renderAggregations d) = [].
Proof.
  unfold renderAggregations. destruct (aggregations d) as [aggs|]; simpl;
    [|reflexivity].
  now rewrite (flat_map_map_none handlers renderAggregationSource _
                 handlers_renderAggregationSource).
Qed.

Lemma handlers_renderProcessed (d : ResultEnvelope) :
  flat_map handlers (renderProcessed d) = [].
Proof.
  unfold renderProcessed. destruct (metadata d) as [m|]; [|reflexivity].
  destruct (lookup m "processing_time") as [[|b|n|s|xs|fs]|];
    try reflexivity.
  - destruct b; reflexivity.
  - destruct (JS.falsy_number n); reflexivity.
  - destruct (JS.truthy_string s); reflexivity.
Qed.

Lemma handlers_renderSummary (d : ResultEnvelope) :
  flat_map handlers (renderSummary d) = [].
Proof.
  unfold renderSummary. cbn [flat_map handlers app].
  rewrite !flat_map_app, handlers_renderProcessed.
  destruct (total_results d); destruct (sources d) as [srcs|];
    cbn [flat_map handlers app]; rewrite ?handlers_jsx_string;
    destruct (summary d) as [s|]; try destruct (JS.truthy_string s);
    destruct (aggregations d) as [aggs|] eqn:Haggs;
    try destruct (0 <? length aggs)%nat;
    cbn [flat_map handlers app jsx_when];
    rewrite ?handlers_renderAggregations; reflexivity.
Qed.

Lemma handlers_renderRow (columns : list string) (r : row) :
  handlers (renderRow columns r) = [].
Proof.
  unfold renderRow. simpl. apply flat_map_map_none. intros col.
  unfold renderCell. simpl. apply handlers_jsx_string.
Qed.

Lemma handlers_renderTable (d : ResultEnvelope) :
  flat_map handlers (renderTable d) = [].
Proof.
  unfold renderTable. destruct (results d) as [[|r rows]|]; try reflexivity.
  cbn -[tableRows getTableColumns].
  rewrite (flat_map_map_none handlers renderHeaderCell).
  - now rewrite (flat_map_map_none handlers (renderRow _) _ (handlers_renderRow _)).
  - intros col. unfold renderHeaderCell. simpl. apply handlers_jsx_string.
Qed.

Lemma handlers_renderSample (sample : json) : handlers (renderSample sample) = [].
Proof.
  unfold renderSample. simpl. rewrite flat_map_app, handlers_jsx_string.
  reflexivity.
Qed.

Lemma handlers_renderSamples (item : TimelineItem) :
  flat_map handlers (renderSamples item) = [].
Proof.
  unfold renderSamples. destruct (items item) as [[|x xs]|]; try reflexivity.
  cbn [flat_map handlers app].
  now rewrite (flat_map_map_none handlers renderSample _ handlers_renderSample).
Qed.

Lemma handlers_renderTimelineItem (item : TimelineItem) :
  handlers (renderTimelineItem item) = [].
Proof.
  unfold renderTimelineItem. cbn [flat_map handlers app].
  now rewrite handlers_jsx_string, handlers_renderSamples.
Qed.

Lemma handlers_renderTimeline (d : ResultEnvelope) :
  flat_map handlers (renderTimeline d) = [].
Proof.
  unfold renderTimeline. destruct (timeline d) as [[|t ts]|]; try reflexivity.
  cbn -[renderTimelineItem].
  rewrite handlers_renderTimelineItem.
  now rewrite (flat_map_map_none handlers renderTimelineItem _
                 handlers_renderTimelineItem).
Qed.

Lemma handlers_renderRawData (d : ResultEnvelope) :
  flat_map handlers (renderRawData d) = [].
Proof.
  unfold renderRawData. simpl. now rewrite handlers_jsx_string.
Qed.

Lemma handlers_resultsContent (d : ResultEnvelope) (st : State) :
  handlers (resultsContent d st) = [].
Proof.
  unfold resultsContent. cbn [handlers].
  destruct (showRawData st); [apply handlers_renderRawData|].
  rewrite !flat_map_app.
  rewrite (handlers_jsx_when _ _ (handlers_renderSummary d)).
  rewrite (handlers_jsx_when _ _ (handlers_renderTable d)).
  now rewrite (handlers_jsx_when _ _ (handlers_renderTimeline d)).
Qed.

(** Whether the component renders at all. *)
Lemma envelope_keys_allAbsent (d : ResultEnvelope) :
  envelope_keys d = [] <-> allAbsent d.
Proof.
  unfold envelope_keys, allAbsent, present.
  destruct (total_results d), (sources d), (summary d), (aggregations d),
    (results d), (timeline d), (metadata d); simpl;
    split; intros H; try discriminate; try tauto;
    repeat match goal with
           | H : _ /\ _ |- _ => destruct H
           end; discriminate.
Qed.

Lemma ResultsDisplay_rendered (d : ResultEnvelope) (st : State) :
  envelope_keys d <> [] ->
  ResultsDisplay (Some d) st
  = Some (Elem "div" "results-display"
            [ Elem "div" "results-header" [viewControls d st; dataControls st];
              resultsContent d st ]).
Proof.
  intros Hkeys. unfold ResultsDisplay.
  destruct (envelope_keys d); [contradiction|reflexivity].
Qed.

(** The handlers on offer: Summary, then Table and Timeline when their
    sequences are not empty, then the raw toggle. *)
Lemma offered_buttons (d : ResultEnvelope) (st : State) :
  envelope_keys d <> [] ->
  offered (Some d) st
  = [OnSetViewMode "summary"]
    ++ (if nonEmpty (results d) then [OnSetViewMode "table"] else [])
    ++ (if nonEmpty (timeline d) then [OnSetViewMode "timeline"] else [])
    ++ [OnSetShowRawData (negb (showRawData st))].
Proof.
  intros Hkeys. unfold offered. rewrite (ResultsDisplay_rendered d st Hkeys).
  cbn [handlers flat_map]. rewrite handlers_resultsContent.
  unfold viewControls, dataControls. cbn [handlers flat_map app].
  rewrite !flat_map_app.
  destruct (nonEmpty (results d)), (nonEmpty (timeline d)), (showRawData st);
    reflexivity.
Qed.

End ButtonFacts.

Section PresenterClaims.
Import Payload ResultsDisplay Specification.
Context {host : Host}.

(** C8, as it holds of the code.  The component returns [null] exactly
    when it is given no envelope or an envelope none of whose fields is
    present; with any field present, even an empty one, it renders. *)
Theorem nothing_rendered_iff_no_fields (data : option ResultEnvelope)
  (st : State) :
  ResultsDisplay data st = None
  <-> data = None \/ exists d, data = Some d /\ allAbsent d.
Proof.
  destruct data as [d|]; simpl.
  - destruct (envelope_keys d) as [|k ks] eqn:Hkeys; simpl.
    + split; [|reflexivity]. intros _. right. exists d.
      split; [reflexivity | now apply envelope_keys_allAbsent].
    + split; [discriminate|].
      intros [Hnone | [d' [Hd Habs]]]; [discriminate|].
      inversion Hd; subst d'. apply envelope_keys_allAbsent in Habs.
      rewrite Habs in Hkeys. discriminate.
  - split; [now left | reflexivity].
Qed.

(** On an envelope that renders, a mode button is on offer exactly for
    the eligible modes other than raw: Summary always, Table when
    [results] is a non-empty sequence, Timeline when [timeline] is.
    The raw view has its own button, always on offer, which negates
    [showRawData] and leaves [viewMode] alone. *)
Lemma mode_buttons_follow_eligibility (d : ResultEnvelope) (st : State) :
  envelope_keys d <> [] ->
  (forall mode,
      In (OnSetViewMode mode) (offered (Some d) st)
      <-> eligible d mode = true /\ mode <> "raw")
  /\ (forall b,
        In (OnSetShowRawData b) (offered (Some d) st)
        <-> b = negb (showRawData st))
  /\ (forall mode,
        run (OnSetViewMode mode) st
        = {| viewMode := mode; showRawData := showRawData st |})
  /\ toggleRaw st
     = {| viewMode := viewMode st; showRawData := negb (showRawData st) |}.
Proof.
  intros Hkeys. rewrite (offered_buttons d st Hkeys).
  split; [|split; [|split; [|reflexivity]]].
  - intros mode. unfold eligible. split.
    + intros Hin.
      assert (Hcases : mode = "summary"
                       \/ (mode = "table" /\ nonEmpty (results d) = true)
                       \/ (mode = "timeline" /\ nonEmpty (timeline d) = true)).
      { destruct (nonEmpty (results d)), (nonEmpty (timeline d));
          simpl in Hin;
          repeat match goal with
                 | H : _ \/ _ |- _ => destruct H
                 | H : OnSetViewMode _ = OnSetViewMode _ |- _ =>
                     inversion H; clear H
                 | H : OnSetShowRawData _ = OnSetViewMode _ |- _ => discriminate H
                 | H : False |- _ => contradiction
                 end; auto. }
      destruct Hcases as [-> | [[-> Hr] | [-> Ht]]]; simpl;
        (split; [assumption || reflexivity | discriminate]).
    + intros [Hel Hraw].
      destruct (String.eqb mode "summary") eqn:Hsummary.
      { apply String.eqb_eq in Hsummary. subst mode. now left. }
      destruct (String.eqb mode "table") eqn:Htable.
      { apply String.eqb_eq in Htable. subst mode.
        rewrite Hel. simpl. right. now left. }
      destruct (String.eqb mode "timeline") eqn:Htimeline.
      { apply String.eqb_eq in Htimeline. subst mode.
        rewrite Hel. destruct (nonEmpty (results d)); simpl; auto. }
      destruct (String.eqb mode "raw") eqn:Hmode; [|discriminate].
      apply String.eqb_eq in Hmode. contradiction.
  - intros b. split.
    + intros Hin.
      destruct (nonEmpty (results d)), (nonEmpty (timeline d));
        simpl in Hin;
        repeat match goal with
               | H : _ \/ _ |- _ => destruct H
               | H : OnSetViewMode _ = OnSetShowRawData _ |- _ => discriminate H
               | H : OnSetShowRawData _ = OnSetShowRawData _ |- _ =>
                   inversion H; clear H
               | H : False |- _ => contradiction
               end; reflexivity.
    + intros ->. rewrite !in_app_iff. do 3 right. now left.
  - intros mode. reflexivity.
Qed.

(** C9.  The raw toggle negates [showRawData] and does not touch
    [viewMode]; toggling twice gives back the state it started from,
    and with it the very same render, whatever the envelope and the
    selected mode. *)
Theorem raw_toggle_round_trip (data : option ResultEnvelope) (st : State) :
  viewMode (toggleRaw st) = viewMode st
  /\ showRawData (toggleRaw st) = negb (showRawData st)
  /\ toggleRaw (toggleRaw st) = st
  /\ ResultsDisplay data (toggleRaw (toggleRaw st)) = ResultsDisplay data st.
Proof.
  assert (Hback : toggleRaw (toggleRaw st) = st).
  { destruct st as [mode raw]. unfold toggleRaw. simpl.
    now rewrite negb_involutive. }
  split; [reflexivity|]. split; [reflexivity|].
  split; [exact Hback | now rewrite Hback].
Qed.

(** While the raw view is on, the content is the serialised envelope
    whatever the view mode. *)
Lemma raw_supersedes_viewMode (d : ResultEnvelope) (mode mode' : string) :
  resultsContent d {| viewMode := mode; showRawData := true |}
  = resultsContent d {| viewMode := mode'; showRawData := true |}.
Proof. reflexivity. Qed.

(** ** The timeline view *)

Lemma byClass_sample (sample : json) :
  byClass "timeline-sample" (renderSample sample) = [renderSample sample].
Proof.
  unfold renderSample. cbn [byClass String.eqb Ascii.eqb Bool.eqb app].
  rewrite flat_map_app, byClass_jsx_string. reflexivity.
Qed.


Lemma byClass_timelineItem (item : TimelineItem) :
  byClass "timeline-sample" (renderTimelineItem item)
  = map renderSample (firstn 2 (itemsOf item)).
Proof.
  unfold renderTimelineItem, renderSamples, itemsOf.
  cbn [byClass String.eqb Ascii.eqb Bool.eqb app flat_map].
  rewrite byClass_jsx_string.
  destruct (items item) as [[|x xs]|]; try reflexivity.
  cbn [byClass String.eqb Ascii.eqb Bool.eqb app flat_map].
  unfold JS.slice0.
  rewrite (flat_map_map_self (byClass "timeline-sample") renderSample _
             byClass_sample).
  now rewrite !app_nil_r.
Qed.


Lemma byClass_timelineItems (entries : list TimelineItem) :
  flat_map (byClass "timeline-sample") (map renderTimelineItem entries)
  = flat_map (fun item => map renderSample (firstn 2 (itemsOf item))) entries.
Proof.
  induction entries as [|e entries IH]; [reflexivity|].
  cbn [map flat_map]. now rewrite byClass_timelineItem, IH.
Qed.

(** The samples of a whole timeline are those of its buckets. *)
Lemma renderTimeline_samples (d : ResultEnvelope) :
  flat_map (byClass "timeline-sample") (renderTimeline d)
  = flat_map (fun item => map renderSample (firstn 2 (itemsOf item)))
      (match timeline d with Some entries => entries | None => [] end).
Proof.
  unfold renderTimeline. destruct (timeline d) as [[|t ts]|]; try reflexivity.
  remember (t :: ts) as entries.
  cbn [byClass String.eqb Ascii.eqb Bool.eqb app flat_map].
  now rewrite byClass_timelineItems, !app_nil_r.
Qed.

End PresenterClaims.

(* ================================================================== *)
(** * The presenter on the samples                                    *)
(* ================================================================== *)

(** C8 as stated fails on [{ "results": [] }]: its only field is
    empty, yet the component renders its frame and the summary
    header. *)
Lemma empty_results_are_rendered :
  Specification.allAbsentOrEmpty Samples.emptyResults = true
  /\ ResultsDisplay.ResultsDisplay (host := Reference.host)
       (Some Samples.emptyResults) ResultsDisplay.initialState
     <> None
  /\ option_map ResultsDisplay.textContent
       (ResultsDisplay.ResultsDisplay (host := Reference.host)
          (Some Samples.emptyResults) ResultsDisplay.initialState)
     = Some "SummaryRaw DataResults Summary".
Proof.
  split; [reflexivity|]. split; [discriminate | reflexivity].
Qed.

(** An envelope without any field, and no envelope, render nothing. *)
Example no_fields_render_nothing :
  ResultsDisplay.ResultsDisplay (host := Reference.host)
    (Some Samples.noFields) ResultsDisplay.initialState = None
  /\ ResultsDisplay.ResultsDisplay (host := Reference.host)
       None ResultsDisplay.initialState = None.
Proof. split; reflexivity. Qed.

(** The three views and the raw view of the sample envelope. *)
Example users_table_view :
  option_map ResultsDisplay.textContent
    (ResultsDisplay.ResultsDisplay (host := Reference.host) (Some Samples.users)
       (ResultsDisplay.setViewMode "table" ResultsDisplay.initialState))
  = Some "SummaryTableTimelineRaw DataDetailed ResultsShowing 2 of 5 resultsNameIdSalaryHired AtEmployerAlice1$87,234.51/15/2024-Bob2$85000.00-Invalid Date".
Proof. vm_compute. reflexivity. Qed.

Example users_summary_view :
  option_map ResultsDisplay.textContent
    (ResultsDisplay.ResultsDisplay (host := Reference.host) (Some Samples.users)
       ResultsDisplay.initialState)
  = Some "SummaryTableTimelineRaw DataResults Summary5 recordspostgresql".
Proof. vm_compute. reflexivity. Qed.

(** Both samples of the bucket end in three dots although neither
    serialisation reaches 100 characters; the third item is not
    shown. *)
Example day_samples :
  map ResultsDisplay.textContent
    (ResultsDisplay.byClass "timeline-sample"
       (ResultsDisplay.renderTimelineItem (host := Reference.host) Samples.day))
  = [ (Reference.stringify 0 0 Samples.sampleItem ++ "...")%string;
      (Reference.quote "b" ++ "...")%string ]
  /\ String.length (Reference.stringify 0 0 Samples.sampleItem) = 19.
Proof. vm_compute. split; reflexivity. Qed.

(** Raw on, raw off: the table view is back as it was. *)
Example users_raw_round_trip :
  ResultsDisplay.ResultsDisplay (host := Reference.host) (Some Samples.users)
    (Specification.toggleRaw
       (Specification.toggleRaw
          (ResultsDisplay.setViewMode "table" ResultsDisplay.initialState)))
  = ResultsDisplay.ResultsDisplay (host := Reference.host) (Some Samples.users)
      (ResultsDisplay.setViewMode "table" ResultsDisplay.initialState).
Proof. reflexivity. Qed.

(* ================================================================== *)
(** * Whole turns of the conversation                                 *)
(* ================================================================== *)

Section TurnFacts.
Import ChatInterface.

(** The guard as a boolean: false exactly on an idle component with
    text to send. *)
Lemma guard_accepts (st : State) :
  negb (JS.truthy_string (JS.trim (inputValue st))) || isLoading st = false
  <-> ~ whitespaceOnly (inputValue st) /\ isLoading st = false.
Proof.
  split.
  - intros Hguard. split.
    + intros Hblank.
      assert (Hrej : negb (JS.truthy_string (JS.trim (inputValue st)))
                     || isLoading st = true)
        by (apply guard_rejects; now left).
      congruence.
    + apply orb_false_iff in Hguard. tauto.
  - intros [Htext Hidle].
    destruct (negb (JS.truthy_string (JS.trim (inputValue st))) || isLoading st)
      eqn:Hguard; [|reflexivity].
    apply guard_rejects in Hguard. destruct Hguard; [contradiction|congruence].
Qed.

(** What an accepted call does when the network answers. *)
Lemma answered_call (before after : Clock)
  (r : ChatService.AxiosResponse Payload.ChatResponse) (st : State) :
  ~ whitespaceOnly (inputValue st) -> isLoading st = false ->
  handleSendMessage before after (inl r) st
  = ({| messages := messages st
                    ++ [userMessage before (inputValue st);
                        botMessage after (ChatService.payload r)];
        inputValue := "";
        isLoading := false |},
     [ ChatService.console_log "API Request:"
         [ChatService.ArgString "POST"; ChatService.ArgString "/chat"];
       ChatService.console_log "API Response:"
         [ChatService.ArgStatus (Some (ChatService.status r));
          ChatService.ArgString "/chat"] ]).
Proof.
  intros Htext Hidle. unfold handleSendMessage.
  rewrite (submit_accepted before st Htext Hidle). cbn.
  unfold setIsLoading, appendMessage. cbn.
  now rewrite <- app_assoc.
Qed.

(** X1.  An accepted call that the network answers appends two
    messages, the user's and then the assistant's.  The user message
    holds the input as typed (it is not trimmed); the assistant message
    holds the response text, the envelope and the query info of the
    answer and is no error.  The input is cleared, the component is
    idle again, and nothing is written to [console.error]. *)
Theorem answered_turn (before after : Clock)
  (r : ChatService.AxiosResponse Payload.ChatResponse) (st : State) :
  ~ whitespaceOnly (inputValue st) -> isLoading st = false ->
  exists u b : Message,
    messages (fst (handleSendMessage before after (inl r) st))
    = messages st ++ [u; b]
    /\ type u = user /\ content u = inputValue st /\ data u = None
    /\ type b = bot
    /\ content b = Payload.response (ChatService.payload r)
    /\ data b = Payload.data (ChatService.payload r)
    /\ queryInfo b = Payload.query_info (ChatService.payload r)
    /\ error b = false
    /\ inputValue (fst (handleSendMessage before after (inl r) st)) = ""
    /\ isLoading (fst (handleSendMessage before after (inl r) st)) = false
    /\ (forall label args,
          ~ In (ChatService.console_error label args)
               (snd (handleSendMessage before after (inl r) st))).
Proof.
  intros Htext Hidle. rewrite (answered_call before after r st Htext Hidle).
  exists (userMessage before (inputValue st)),
         (botMessage after (ChatService.payload r)).
  cbn [fst snd messages inputValue isLoading].
  do 11 (split; [reflexivity|]).
  intros label args [Hin | [Hin | []]]; discriminate Hin.
Qed.

Lemma answered_turn_witness :
  exists u b : Message,
    messages (fst (handleSendMessage Samples.noon Samples.later
                     (inl Scenarios.answered) Scenarios.padded))
    = messages Scenarios.padded ++ [u; b]
    /\ type u = user /\ content u = inputValue Scenarios.padded
    /\ data u = None
    /\ type b = bot
    /\ content b = Payload.response (ChatService.payload Scenarios.answered)
    /\ data b = Payload.data (ChatService.payload Scenarios.answered)
    /\ queryInfo b = Payload.query_info (ChatService.payload Scenarios.answered)
    /\ error b = false
    /\ inputValue (fst (handleSendMessage Samples.noon Samples.later
                          (inl Scenarios.answered) Scenarios.padded)) = ""
    /\ isLoading (fst (handleSendMessage Samples.noon Samples.later
                         (inl Scenarios.answered) Scenarios.padded)) = false
    /\ (forall label args,
          ~ In (ChatService.console_error label args)
               (snd (handleSendMessage Samples.noon Samples.later
                       (inl Scenarios.answered) Scenarios.padded))).
Proof.
  apply (answered_turn Samples.noon Samples.later Scenarios.answered
           Scenarios.padded).
  - intros Hblank. apply trim_empty_iff in Hblank. discriminate Hblank.
  - reflexivity.
Defined.

(** X2.  A call of [handleSendMessage], whatever the state, the input
    and the network's answer, only ever appends to the message log: it
    adds nothing, or a user message followed by an assistant message.
    No earlier message is changed or removed, and once the call is over
    the loading flag is what it was before. *)
Theorem log_is_append_only (before after : Clock)
  (net : ChatService.Transport Payload.ChatResponse) (st : State) :
  exists added : list Message,
    messages (fst (handleSendMessage before after net st))
    = messages st ++ added
    /\ (added = []
        \/ exists u b, added = [u; b] /\ type u = user /\ type b = bot)
    /\ isLoading (fst (handleSendMessage before after net st)) = isLoading st.
Proof.
  destruct (negb (JS.truthy_string (JS.trim (inputValue st))) || isLoading st)
    eqn:Hguard.
  - exists []. unfold handleSendMessage, handleSendMessage_submit.
    rewrite Hguard. cbn. rewrite app_nil_r. auto.
  - apply guard_accepts in Hguard. destruct Hguard as [Htext Hidle].
    destruct net as [r | err].
    + rewrite (answered_call before after r st Htext Hidle).
      exists [userMessage before (inputValue st);
              botMessage after (ChatService.payload r)].
      cbn [fst messages isLoading]. split; [reflexivity|].
      split; [|now rewrite Hidle]. right. eauto.
    + rewrite (rejected_call before after err st Htext Hidle).
      exists [userMessage before (inputValue st); errorMessage after].
      cbn [messages isLoading]. split; [reflexivity|].
      split; [|now rewrite Hidle]. right. eauto.
Qed.

End TurnFacts.

Section InputFacts.
Import ChatInterface InputArea.

(** X3.  The send button is disabled exactly when a click on it would
    do nothing: [handleSendMessage] returns at its guard, leaving the
    state alone and sending no request, if and only if the button's
    [disabled] expression is true. *)
Theorem send_button_mirrors_guard (clock : Clock) (st : State) :
  sendDisabled st = true <-> handleSendMessage_submit clock st = (st, None).
Proof.
  unfold sendDisabled, handleSendMessage_submit.
  destruct (negb (JS.truthy_string (JS.trim (inputValue st))) || isLoading st).
  - split; reflexivity.
  - split; intros H; [discriminate | inversion H].
Qed.

(** X4.  A key press sends only as an unshifted Enter on an idle
    component whose input is not blank: if [handleKeyPress] changes the
    state or issues a request, the key was Enter without Shift, the
    default action was prevented, the component was idle and the input
    held something besides white space.  Every other key press leaves
    the state alone. *)
Theorem only_plain_Enter_sends (clock : Clock) (e : KeyEvent) (st : State) :
  snd (handleKeyPress clock e st) <> (st, None) ->
  key e = "Enter" /\ shiftKey e = false
  /\ fst (handleKeyPress clock e st) = true
  /\ ~ whitespaceOnly (inputValue st) /\ isLoading st = false.
Proof.
  unfold handleKeyPress.
  destruct (String.eqb (key e) "Enter") eqn:Hkey;
    destruct (shiftKey e) eqn:Hshift; cbn [andb negb fst snd];
    try (intros Hchanged; now contradiction Hchanged).
  intros Hchanged. apply String.eqb_eq in Hkey.
  split; [exact Hkey|]. split; [reflexivity|]. split; [reflexivity|].
  apply guard_accepts.
  destruct (negb (JS.truthy_string (JS.trim (inputValue st))) || isLoading st)
    eqn:Hguard; [|reflexivity].
  exfalso. apply Hchanged. unfold handleSendMessage_submit. now rewrite Hguard.
Qed.

Lemma only_plain_Enter_sends_witness :
  key {| key := "Enter"; shiftKey := false |} = "Enter"
  /\ shiftKey {| key := "Enter"; shiftKey := false |} = false
  /\ fst (handleKeyPress Samples.noon {| key := "Enter"; shiftKey := false |}
            Samples.typed) = true
  /\ ~ whitespaceOnly (inputValue Samples.typed)
  /\ isLoading Samples.typed = false.
Proof.
  apply (only_plain_Enter_sends Samples.noon
           {| key := "Enter"; shiftKey := false |} Samples.typed).
  discriminate.
Defined.

(** Every query of the catalogue holds something besides white space. *)
Lemma quick_queries_not_blank (query : string) :
  In query QuickQueries.buttons -> JS.truthy_string (JS.trim query) = true.
Proof.
  assert (Hall : forallb (fun q => JS.truthy_string (JS.trim q))
                   QuickQueries.buttons = true) by (vm_compute; reflexivity).
  intros Hin. rewrite forallb_forall in Hall. now apply Hall.
Qed.

(** X5.  A quick-query button only fills the input: the message log and
    the loading flag stay as they are and nothing is sent.  On an idle
    component the next send then submits exactly that query: every
    query of the catalogue passes the guard, becomes the user message,
    and is the message of the request, with the fixed conversation
    id. *)
Theorem quick_query_is_sent (clock : Clock) (query : string) (st : State) :
  In query QuickQueries.buttons -> isLoading st = false ->
  messages (QuickQueries.click query st) = messages st
  /\ isLoading (QuickQueries.click query st) = isLoading st
  /\ inputValue (QuickQueries.click query st) = query
  /\ handleSendMessage_submit clock (QuickQueries.click query st)
     = ({| messages := messages st ++ [userMessage clock query];
           inputValue := "";
           isLoading := true |},
        Some {| ChatService.req_message := query;
                ChatService.req_conversation_id := "default" |}).
Proof.
  intros Hin Hidle. repeat (split; [reflexivity|]).
  unfold handleSendMessage_submit, QuickQueries.click, handleQuickQuery.
  cbn [setInputValue inputValue isLoading].
  now rewrite (quick_queries_not_blank query Hin), Hidle.
Qed.

Lemma quick_query_is_sent_witness :
  messages (QuickQueries.click "Count orders by status" Samples.fresh)
  = messages Samples.fresh
  /\ isLoading (QuickQueries.click "Count orders by status" Samples.fresh)
     = isLoading Samples.fresh
  /\ inputValue (QuickQueries.click "Count orders by status" Samples.fresh)
     = "Count orders by status"
  /\ handleSendMessage_submit Samples.noon
       (QuickQueries.click "Count orders by status" Samples.fresh)
     = ({| messages := messages Samples.fresh
                       ++ [userMessage Samples.noon "Count orders by status"];
           inputValue := "";
           isLoading := true |},
        Some {| ChatService.req_message := "Count orders by status";
                ChatService.req_conversation_id := "default" |}).
Proof.
  apply (quick_query_is_sent Samples.noon "Count orders by status"
           Samples.fresh).
  - vm_compute. do 13 right. left. reflexivity.
  - reflexivity.
Defined.

End InputFacts.

(* ================================================================== *)
(** * The service methods: outcome and console                        *)
(* ================================================================== *)

Section ServiceTrace.
Import ChatService.

(** X6.  The availability probe never throws: it answers [true] when
    the network answered and [false] when axios rejected, whatever the
    rejection was. *)
Theorem availability_probe_never_throws (net : Transport Payload.json) :
  outcome (checkBackendAvailability net)
  = JS.Normal (match net with
               | inl _ => true
               | inr _ => false
               end).
Proof.
  destruct net as [r | error].
  - reflexivity.
  - apply checkBackendAvailability_rejected.
Qed.

(** X7.  A service method is a request wrapped in a logging [catch].
    When the network answers, the method returns the payload of the
    answer and the console holds the request line and the response
    line, no error.  When axios rejects, the method throws, and the
    console holds the request line, the interceptor's error line with
    the status and the message of the axios error, and the method's own
    error line with the very value that is thrown.  The four methods
    are such wrapped requests. *)
Theorem service_method_trace {A : Type} (label : string) (config : Config)
  (net : Transport A) :
  match net with
  | inl r =>
      logged label (apiClient_request config net)
      = ([ console_log "API Request:"
             [ArgString (Method_upper (method config)); ArgString (url config)];
           console_log "API Response:"
             [ArgStatus (Some (status r)); ArgString (url config)] ],
         JS.Normal (payload r))
  | inr error =>
      exists t : Thrown,
        logged label (apiClient_request config net)
        = ([ console_log "API Request:"
               [ArgString (Method_upper (method config));
                ArgString (url config)];
             console_error "API Response Error:"
               [ArgStatus (response_status error); ArgString (message error)];
             console_error label [ArgThrown t] ],
           JS.Throw t)
  end
  /\ (forall msg cid (n : Transport Payload.ChatResponse),
        sendMessage msg cid n
        = logged "Chat service error:"
            (apiClient_request
               {| method := POST; url := "/chat";
                  body := Some {| req_message := msg;
                                  req_conversation_id := cid |} |} n))
  /\ (forall n : Transport Payload.json,
        getHealth n
        = logged "Health check error:"
            (apiClient_request
               {| method := GET; url := "/health"; body := None |} n)
        /\ getElasticsearchSchema n
           = logged "ES schema error:"
               (apiClient_request
                  {| method := GET; url := "/schema/elasticsearch";
                     body := None |} n)
        /\ getPostgreSQLSchema n
           = logged "PG schema error:"
               (apiClient_request
                  {| method := GET; url := "/schema/postgresql";
                     body := None |} n)).
Proof.
  split; [|split; [reflexivity | intros n; repeat split]].
  destruct net as [r | error].
  - reflexivity.
  - exists (if code_is error "ECONNREFUSED" then Unreachable
            else if status_is error 500 then ServerError
            else if status_is error 404 then NotFound
            else Original error).
    unfold logged, apiClient_request, requestInterceptor, responseRejected,
      catch, bind, log, throw, ret. cbn.
    destruct (code_is error "ECONNREFUSED"); [reflexivity|].
    destruct (status_is error 500); [reflexivity|].
    destruct (status_is error 404); reflexivity.
Qed.

End ServiceTrace.

(* ================================================================== *)
(** * More on the presenter                                           *)
(* ================================================================== *)

Section CharFacts.

Lemma upcaseWordChar_underscore (c : ascii) :
  Ascii.eqb (JS.upcaseWordChar c) "_"%char = Ascii.eqb c "_"%char.
Proof.
  destruct c as [[] [] [] [] [] [] [] []]; reflexivity.
Qed.

Lemma upcaseWordChar_idempotent (c : ascii) :
  JS.upcaseWordChar (JS.upcaseWordChar c) = JS.upcaseWordChar c.
Proof.
  destruct c as [[] [] [] [] [] [] [] []]; reflexivity.
Qed.

Lemma isWordChar_upcase (c : ascii) :
  JS.isWordChar (JS.upcaseWordChar c) = JS.isWordChar c.
Proof.
  destruct c as [[] [] [] [] [] [] [] []]; reflexivity.
Qed.

Lemma includes_underscore_cons (c : ascii) (s : string) :
  JS.includes (String c s) "_" = Ascii.eqb c "_"%char || JS.includes s "_".
Proof.
  cbn [JS.includes String.prefix].
  destruct (ascii_dec "_" c) as [<-|Hne].
  - destruct s; reflexivity.
  - destruct (Ascii.eqb c "_"%char) eqn:Hc; [|reflexivity].
    apply Ascii.eqb_eq in Hc. congruence.
Qed.

Lemma replaceUnderscores_length (s : string) :
  String.length (JS.replaceUnderscores s) = String.length s.
Proof. induction s as [|c s IH]; simpl; congruence. Qed.

Lemma capitalizeWordsFrom_length (prev : bool) (s : string) :
  String.length (JS.capitalizeWordsFrom prev s) = String.length s.
Proof.
  revert prev. induction s as [|c s IH]; intros prev; simpl; [|rewrite IH];
    reflexivity.
Qed.

Lemma replaceUnderscores_clean (s : string) :
  JS.includes (JS.replaceUnderscores s) "_" = false.
Proof.
  induction s as [|c s IH]; [reflexivity|].
  cbn [JS.replaceUnderscores]. rewrite includes_underscore_cons, IH.
  destruct (Ascii.eqb c "_"%char) eqn:Hc; [reflexivity|].
  now rewrite Hc.
Qed.

Lemma capitalizeWordsFrom_clean (prev : bool) (s : string) :
  JS.includes s "_" = false ->
  JS.includes (JS.capitalizeWordsFrom prev s) "_" = false.
Proof.
  revert prev. induction s as [|c s IH]; intros prev; [reflexivity|].
  rewrite includes_underscore_cons. intros Hclean.
  apply orb_false_iff in Hclean. destruct Hclean as [Hc Hs].
  cbn [JS.capitalizeWordsFrom]. rewrite includes_underscore_cons, (IH _ Hs).
  destruct (JS.isWordChar c && negb prev);
    [rewrite upcaseWordChar_underscore|]; now rewrite Hc.
Qed.

Lemma replaceUnderscores_id (s : string) :
  JS.includes s "_" = false -> JS.replaceUnderscores s = s.
Proof.
  induction s as [|c s IH]; [reflexivity|].
  rewrite includes_underscore_cons. intros Hclean.
  apply orb_false_iff in Hclean. destruct Hclean as [Hc Hs].
  cbn [JS.replaceUnderscores]. now rewrite Hc, (IH Hs).
Qed.

Lemma capitalizeWordsFrom_idempotent (prev : bool) (s : string) :
  JS.capitalizeWordsFrom prev (JS.capitalizeWordsFrom prev s)
  = JS.capitalizeWordsFrom prev s.
Proof.
  revert prev. induction s as [|c s IH]; intros prev; [reflexivity|].
  cbn [JS.capitalizeWordsFrom].
  destruct (JS.isWordChar c && negb prev) eqn:Hstart.
  - rewrite isWordChar_upcase, Hstart, upcaseWordChar_idempotent.
    f_equal. apply IH.
  - rewrite Hstart. f_equal. apply IH.
Qed.

Lemma append_length (a b : string) :
  String.length (a ++ b) = String.length a + String.length b.
Proof. induction a as [|c a IH]; simpl; congruence. Qed.

End CharFacts.

Section PresenterMore.
Import Payload ResultsDisplay Specification.
Context {host : Host}.

(** X8.  Column headers and aggregation labels are made by the same
    rewriting: the result has the length of the name, holds no
    underscore any more, and is left as it is when formatted again. *)
Theorem formatColumnName_shape (col : string) :
  String.length (formatColumnName col) = String.length col
  /\ JS.includes (formatColumnName col) "_" = false
  /\ formatColumnName (formatColumnName col) = formatColumnName col
  /\ formatAggregationLabel col = formatColumnName col.
Proof.
  unfold formatAggregationLabel, formatColumnName, JS.capitalizeWords.
  split; [now rewrite capitalizeWordsFrom_length, replaceUnderscores_length|].
  assert (Hclean : JS.includes
                     (JS.capitalizeWordsFrom false (JS.replaceUnderscores col))
                     "_" = false)
    by apply capitalizeWordsFrom_clean, replaceUnderscores_clean.
  split; [exact Hclean|]. split; [|reflexivity].
  rewrite (replaceUnderscores_id _ Hclean).
  apply capitalizeWordsFrom_idempotent.
Qed.

Lemma byClass_renderBucket (b : Bucket.t) :
  byClass "bucket-item" (renderBucket b) = [renderBucket b].
Proof.
  unfold renderBucket, jsx_atom.
  destruct (Bucket.key b) as [[|c s]|n]; reflexivity.
Qed.

(** X9.  Of a bucket-valued metric the first five buckets are rendered,
    in order, and no more; a scalar metric renders no bucket. *)
Theorem buckets_capped_at_five (key : string) (value : metric) :
  byClass "bucket-item" (renderMetric (key, value))
  = match value with
    | MetricBuckets buckets => map renderBucket (firstn 5 buckets)
    | MetricValue _ => []
    end
  /\ length (byClass "bucket-item" (renderMetric (key, value))) <= 5.
Proof.
  assert (Hitems : byClass "bucket-item" (renderMetric (key, value))
                   = match value with
                     | MetricBuckets buckets => map renderBucket (firstn 5 buckets)
                     | MetricValue _ => []
                     end).
  { unfold renderMetric.
    cbn [byClass String.eqb Ascii.eqb Bool.eqb app flat_map].
    rewrite byClass_jsx_string. destruct value as [v | buckets].
    - now rewrite byClass_jsx_string.
    - cbn [byClass String.eqb Ascii.eqb Bool.eqb app flat_map].
      unfold JS.slice0.
      rewrite (flat_map_map_self (byClass "bucket-item") renderBucket _
                 byClass_renderBucket).
      now rewrite !app_nil_r. }
  split; [exact Hitems|]. rewrite Hitems. destruct value as [v | buckets].
  - simpl. lia.
  - rewrite length_map. apply firstn_le_length.
Qed.

Lemma byTag_td_row (columns : list string) (r : row) :
  byTag "td" (renderRow columns r) = map (renderCell r) columns.
Proof.
  unfold renderRow. cbn [byTag String.eqb Ascii.eqb Bool.eqb app].
  apply flat_map_map_self. intros col. unfold renderCell.
  cbn [byTag String.eqb Ascii.eqb Bool.eqb app].
  now rewrite byTag_jsx_string.
Qed.

(** X10.  The rendered table is rectangular: every body row has one
    cell per header cell, whichever fields the row itself has. *)
Theorem table_is_rectangular (d : ResultEnvelope) :
  Forall
    (fun tr => length (byTag "td" tr)
               = length (flat_map (byTag "th") (renderTable d)))
    (flat_map (byTag "tr") (flat_map (byTag "tbody") (renderTable d))).
Proof.
  rewrite renderTable_header, renderTable_body, length_map.
  apply Forall_forall. intros tr Hin.
  apply in_map_iff in Hin. destruct Hin as [r [<- _]].
  now rewrite byTag_td_row, length_map.
Qed.

(** X11.  A column whose name holds [price] or [salary] is of the
    currency class.  A column whose name holds [amount] but neither of
    the two is of the currency class as well, yet its numbers are not
    given the currency form: they are shown by [toString]. *)
Theorem currency_class_and_format (column : string) :
  (JS.includes column "price" || JS.includes column "salary" = true ->
   getColumnClass column = "currency")
  /\ (JS.includes column "amount" = true ->
      JS.includes column "price" = false ->
      JS.includes column "salary" = false ->
      getColumnClass column = "currency"
      /\ forall n : float,
           formatCellValue (Some (SNum n)) column = Number_toString n).
Proof.
  unfold getColumnClass. split.
  - intros Hcol. now rewrite Hcol.
  - intros Hamount Hprice Hsalary. rewrite Hamount, Hprice, Hsalary.
    split; [reflexivity|]. intros n. apply formatCellValue_number.
    now rewrite Hprice, Hsalary.
Qed.

(** X12.  Outside the salary columns a string that is not date-like is
    shown whole when it has at most 50 characters, and otherwise as its
    first 50 characters followed by three dots: a text cell never shows
    more than 53 characters. *)
Theorem long_text_is_cut (s column : string) :
  JS.includes s "T" && JS.includes s "Z" = false ->
  JS.includes column "salary" = false ->
  String.length (formatCellValue (Some (SStr s)) column) <= 53
  /\ (String.length s <= 50 -> formatCellValue (Some (SStr s)) column = s)
  /\ (50 < String.length s ->
      formatCellValue (Some (SStr s)) column
      = (JS.substring0 50 s ++ "...")%string
      /\ String.length (formatCellValue (Some (SStr s)) column) = 53).
Proof.
  intros Hdate Hcol. rewrite (formatCellValue_text s column Hdate Hcol).
  destruct (50 <? String.length s)%nat eqn:Hlong.
  - apply Nat.ltb_lt in Hlong.
    assert (Hlen : String.length (JS.substring0 50 s ++ "...")%string = 53).
    { rewrite append_length, substring0_length, Nat.min_l by lia.
      reflexivity. }
    split; [lia|]. split; [lia|]. intros _. now split.
  - apply Nat.ltb_ge in Hlong. split; [lia|]. split; [reflexivity|lia].
Qed.

(** X13.  Rows after the tenth have no part in the table view: an
    envelope with ten rows or more renders the same table whatever rows
    follow them. *)
Theorem rows_beyond_ten_are_ignored (d : ResultEnvelope) (all more : list row) :
  10 <= length all ->
  renderTable (Scenarios.withResults d (all ++ more))
  = renderTable (Scenarios.withResults d all).
Proof.
  intros Hlen.
  assert (Hrows : tableRows (all ++ more) = tableRows all).
  { unfold tableRows, JS.slice0. rewrite firstn_app.
    replace (10 - length all) with 0 by lia. cbn [firstn].
    apply app_nil_r. }
  unfold renderTable, totalOrLength. cbn [Scenarios.withResults results total_results].
  destruct all as [|r all]; [simpl in Hlen; lia|].
  cbn [app]. change (r :: all ++ more) with ((r :: all) ++ more).
  now rewrite Hrows.
Qed.

(** X14.  The two state cells do not interfere.  The setters commute;
    a mode chosen while the raw view is on changes nothing of what is
    shown, and it is the mode shown once the raw view is switched off
    again. *)
Theorem mode_chosen_under_raw_is_kept (data : option ResultEnvelope)
  (mode : string) (st : State) :
  (forall b, setViewMode mode (setShowRawData b st)
             = setShowRawData b (setViewMode mode st))
  /\ toggleRaw (setViewMode mode (toggleRaw st)) = setViewMode mode st
  /\ ResultsDisplay data (toggleRaw (setViewMode mode (toggleRaw st)))
     = ResultsDisplay data (setViewMode mode st)
  /\ (forall d, showRawData st = true ->
        resultsContent d (setViewMode mode st) = resultsContent d st).
Proof.
  assert (Hback : toggleRaw (setViewMode mode (toggleRaw st))
                  = setViewMode mode st).
  { destruct st as [m raw]. unfold toggleRaw, setViewMode. simpl.
    now rewrite negb_involutive. }
  split; [reflexivity|]. split; [exact Hback|].
  split; [now rewrite Hback|].
  intros d Hraw. unfold resultsContent. cbn [setViewMode showRawData].
  now rewrite Hraw.
Qed.

(** X15.  At most one mode button carries the class [active], and a
    button that does is the button of the current view mode. *)
Theorem active_button_is_current_mode (d : ResultEnvelope) (st : State) :
  length (byClass "active" (viewControls d st)) <= 1
  /\ forall h, In h (flat_map handlers (byClass "active" (viewControls d st))) ->
               h = OnSetViewMode (viewMode st).
Proof.
  unfold viewControls, activeClass.
  destruct (String.eqb (viewMode st) "summary") eqn:Hsummary;
    destruct (String.eqb (viewMode st) "table") eqn:Htable;
    destruct (String.eqb (viewMode st) "timeline") eqn:Htimeline;
    try apply String.eqb_eq in Hsummary;
    try apply String.eqb_eq in Htable;
    try apply String.eqb_eq in Htimeline;
    try congruence;
    destruct (nonEmpty (results d)); destruct (nonEmpty (timeline d));
    cbn; (split; [lia|]); intros h Hin;
    repeat match goal with
           | H : _ \/ _ |- _ => destruct H
           | H : False |- _ => contradiction
           end; subst; congruence.
Qed.

End PresenterMore.

Lemma long_text_is_cut_witness :
  String.length
    (ResultsDisplay.formatCellValue (host := Reference.host)
       (Some (Payload.SStr
                "a remark that runs on well beyond the fifty characters a cell may show"))
       "note") <= 53
  /\ (String.length
        "a remark that runs on well beyond the fifty characters a cell may show"
      <= 50 ->
      ResultsDisplay.formatCellValue (host := Reference.host)
        (Some (Payload.SStr
                 "a remark that runs on well beyond the fifty characters a cell may show"))
        "note"
      = "a remark that runs on well beyond the fifty characters a cell may show")
  /\ (50 < String.length
             "a remark that runs on well beyond the fifty characters a cell may show" ->
      ResultsDisplay.formatCellValue (host := Reference.host)
        (Some (Payload.SStr
                 "a remark that runs on well beyond the fifty characters a cell may show"))
        "note"
      = (JS.substring0 50
           "a remark that runs on well beyond the fifty characters a cell may show"
         ++ "...")%string
      /\ String.length
           (ResultsDisplay.formatCellValue (host := Reference.host)
              (Some (Payload.SStr
                       "a remark that runs on well beyond the fifty characters a cell may show"))
              "note") = 53).
Proof.
  apply (long_text_is_cut (host := Reference.host)
           "a remark that runs on well beyond the fifty characters a cell may show"
           "note"); reflexivity.
Defined.

Lemma rows_beyond_ten_are_ignored_witness :
  ResultsDisplay.renderTable (host := Reference.host)
    (Scenarios.withResults Samples.users
       (Scenarios.tenRows ++ [Scenarios.eleventh]))
  = ResultsDisplay.renderTable (host := Reference.host)
      (Scenarios.withResults Samples.users Scenarios.tenRows).
Proof.
  apply (rows_beyond_ten_are_ignored (host := Reference.host) Samples.users
           Scenarios.tenRows [Scenarios.eleventh]).
  simpl. lia.
Defined.

(** Eight buckets in, five out. *)
Example eight_buckets_render_five :
  map ResultsDisplay.textContent
    (ResultsDisplay.byClass "bucket-item"
       (ResultsDisplay.renderMetric (host := Reference.host)
          ("by_status", Payload.MetricBuckets Scenarios.eightBuckets)))
  = ["a8"; "b7"; "c6"; "d5"; "e4"].
Proof. vm_compute. reflexivity. Qed.

Example column_headers :
  map ResultsDisplay.formatColumnName ["user_id"; "hired_at"; "name"]
  = ["User Id"; "Hired At"; "Name"].
Proof. reflexivity. Qed.

Example amount_column :
  ResultsDisplay.getColumnClass "total_amount" = "currency"
  /\ ResultsDisplay.formatCellValue (host := Reference.host)
       (Some (Payload.SNum 1250.5)) "total_amount" = "1250.5"
  /\ ResultsDisplay.formatCellValue (host := Reference.host)
       (Some (Payload.SNum 1250.5)) "unit_price" = "$1,250.5".
Proof. vm_compute. repeat split. Qed.

(* ================================================================== *)
(** * The message view                                                *)
(* ================================================================== *)

Section MessageFacts.
Import Payload ChatMessage Specification.
Context {host : Host}.
Variable formatTime : Z -> string.

Lemma markups_jsx_string (s : string) : flat_map markups (jsx_string s) = [].
Proof. destruct s; reflexivity. Qed.

Lemma embedded_jsx_string (s : string) : flat_map embedded (jsx_string s) = [].
Proof. destruct s; reflexivity. Qed.

Lemma markups_getMessageIcon (m : ChatInterface.Message) :
  markups (getMessageIcon m) = [].
Proof.
  unfold getMessageIcon.
  destruct (ChatInterface.type m), (ChatInterface.error m); reflexivity.
Qed.

Lemma embedded_getMessageIcon (m : ChatInterface.Message) :
  embedded (getMessageIcon m) = [].
Proof.
  unfold getMessageIcon.
  destruct (ChatInterface.type m), (ChatInterface.error m); reflexivity.
Qed.

Lemma markups_getSourceIndicators (m : ChatInterface.Message) :
  flat_map markups (getSourceIndicators m) = [].
Proof.
  unfold getSourceIndicators, indicators.
  destruct (ChatInterface.queryInfo m) as [info|]; [|reflexivity].
  destruct (routing info) as [[[] []]|]; reflexivity.
Qed.

Lemma embedded_getSourceIndicators (m : ChatInterface.Message) :
  flat_map embedded (getSourceIndicators m) = [].
Proof.
  unfold getSourceIndicators, indicators.
  destruct (ChatInterface.queryInfo m) as [info|]; [|reflexivity].
  destruct (routing info) as [[[] []]|]; reflexivity.
Qed.

Lemma markups_detail (label value : string) : markups (detail label value) = [].
Proof. unfold detail. simpl. apply markups_jsx_string. Qed.

Lemma embedded_detail (label value : string) : embedded (detail label value) = [].
Proof. unfold detail. simpl. apply embedded_jsx_string. Qed.

Lemma markups_renderQueryInfo (info : QueryInfo) :
  markups (renderQueryInfo info) = [].
Proof.
  unfold renderQueryInfo. cbn [markups flat_map app].
  rewrite !flat_map_app.
  destruct (intent info) as [i|]; [destruct (JS.truthy_string i)|];
    destruct (entities info) as [[|e es]|]; destruct (routing info) as [r|];
    cbn [flat_map app]; rewrite ?markups_detail; reflexivity.
Qed.

Lemma embedded_renderQueryInfo (info : QueryInfo) :
  embedded (renderQueryInfo info) = [].
Proof.
  unfold renderQueryInfo. cbn [embedded flat_map app].
  rewrite !flat_map_app.
  destruct (intent info) as [i|]; [destruct (JS.truthy_string i)|];
    destruct (entities info) as [[|e es]|]; destruct (routing info) as [r|];
    cbn [flat_map app]; rewrite ?embedded_detail; reflexivity.
Qed.

Lemma replaceNewlines_clean (s : string) :
  occurrences lineFeed (replaceNewlines s) = 0.
Proof.
  induction s as [|c s IH]; [reflexivity|].
  cbn [replaceNewlines]. destruct (Ascii.eqb c lineFeed) eqn:Hc.
  - exact IH.
  - cbn [occurrences]. now rewrite Hc, IH.
Qed.

Lemma replaceNewlines_id (s : string) :
  occurrences lineFeed s = 0 -> replaceNewlines s = s.
Proof.
  induction s as [|c s IH]; [reflexivity|].
  cbn [occurrences replaceNewlines].
  destruct (Ascii.eqb c lineFeed); [discriminate|].
  intros Hnone. now rewrite IH.
Qed.

Lemma replaceNewlines_length (s : string) :
  String.length (replaceNewlines s)
  = String.length s + 3 * occurrences lineFeed s.
Proof.
  induction s as [|c s IH]; [reflexivity|].
  cbn [occurrences replaceNewlines].
  destruct (Ascii.eqb c lineFeed); cbn [String.length append]; rewrite IH; lia.
Qed.

(** X16.  The only markup a message sets as inner HTML is its content
    with every line feed replaced by a line-break tag.  No line feed is
    left, each one costs three more characters, and a content without
    line feeds is passed on character for character: nothing in it is
    escaped. *)
Theorem message_markup (m : ChatInterface.Message) (st : ResultsDisplay.State) :
  markups (ChatMessage formatTime m st)
  = [replaceNewlines (ChatInterface.content m)]
  /\ occurrences lineFeed (replaceNewlines (ChatInterface.content m)) = 0
  /\ String.length (replaceNewlines (ChatInterface.content m))
     = String.length (ChatInterface.content m)
       + 3 * occurrences lineFeed (ChatInterface.content m)
  /\ (occurrences lineFeed (ChatInterface.content m) = 0 ->
      replaceNewlines (ChatInterface.content m) = ChatInterface.content m).
Proof.
  split; [|split; [apply replaceNewlines_clean|
                   split; [apply replaceNewlines_length
                          |apply replaceNewlines_id]]].
  unfold ChatMessage. cbn [markups flat_map app].
  rewrite !flat_map_app, markups_getSourceIndicators, markups_getMessageIcon.
  cbn [markups flat_map app]. rewrite markups_jsx_string.
  destruct (ChatInterface.queryInfo m) as [info|];
    cbn [flat_map app]; rewrite ?markups_renderQueryInfo;
    (destruct (ChatInterface.data m) as [d|];
     [destruct (ResultsDisplay.ResultsDisplay (Some d) st)|]; reflexivity).
Qed.

(** X17.  The intent is shown with its first underscore turned into a
    blank and only the first: the text keeps its length and has one
    underscore fewer than the intent (none fewer when it had none), so
    an intent with two underscores or more is shown with an
    underscore. *)
Theorem intent_first_underscore_only (s : string) :
  String.length (replaceFirstUnderscore s) = String.length s
  /\ occurrences "_" (replaceFirstUnderscore s) = pred (occurrences "_" s)
  /\ (2 <= occurrences "_" s -> 1 <= occurrences "_" (replaceFirstUnderscore s)).
Proof.
  assert (Hcount : occurrences "_" (replaceFirstUnderscore s)
                   = pred (occurrences "_" s)).
  { induction s as [|c s IH]; [reflexivity|].
    cbn [replaceFirstUnderscore occurrences].
    destruct (Ascii.eqb c "_") eqn:Hc; cbn [occurrences].
    - reflexivity.
    - now rewrite Hc. }
  split; [|split; [exact Hcount | rewrite Hcount; lia]].
  clear Hcount. induction s as [|c s IH]; [reflexivity|].
  cbn [replaceFirstUnderscore].
  destruct (Ascii.eqb c "_"); [reflexivity|]. simpl. now rewrite IH.
Qed.

(** X18.  The badges in the header and the names on the Sources line
    agree: there are as many badges as names, Elasticsearch before
    PostgreSQL in both, and the header has no badge block exactly when
    the Sources line names nothing.  Without query info there is no
    badge block. *)
Theorem badges_match_sources (m : ChatInterface.Message) :
  match ChatInterface.queryInfo m with
  | None => getSourceIndicators m = []
  | Some info =>
      match routing info with
      | None => getSourceIndicators m = []
      | Some r =>
          length (indicators r) = length (sourceNames r)
          /\ map textOf (indicators r)
             = map (fun name =>
                      if String.eqb name "Elasticsearch" then "ES" else "PG")
                   (sourceNames r)
          /\ (getSourceIndicators m = [] <-> sourceNames r = [])
          /\ flat_map (byClass "source-indicators") (getSourceIndicators m)
             = getSourceIndicators m
      end
  end.
Proof.
  unfold getSourceIndicators, indicators, sourceNames.
  destruct (ChatInterface.queryInfo m) as [info|]; [|reflexivity].
  destruct (routing info) as [[[] []]|]; cbn; try reflexivity;
    repeat split; intros H; discriminate H.
Qed.

(** X19.  A message shows a result presenter exactly when it carries an
    envelope with at least one field: never more than one, and none
    when the message has no envelope or an envelope without fields. *)
Theorem presenter_shown_iff_fields (m : ChatInterface.Message)
  (st : ResultsDisplay.State) :
  length (embedded (ChatMessage formatTime m st)) <= 1
  /\ (embedded (ChatMessage formatTime m st) = []
      <-> ChatInterface.data m = None
          \/ exists d, ChatInterface.data m = Some d /\ allAbsent d).
Proof.
  assert (Hemb : embedded (ChatMessage formatTime m st)
                 = match ChatInterface.data m with
                   | Some d =>
                       match ResultsDisplay.ResultsDisplay (Some d) st with
                       | Some v => [v]
                       | None => []
                       end
                   | None => []
                   end).
  { unfold ChatMessage. cbn [embedded flat_map app].
    rewrite !flat_map_app, embedded_getSourceIndicators,
      embedded_getMessageIcon.
    cbn [embedded flat_map app]. rewrite embedded_jsx_string.
    destruct (ChatInterface.queryInfo m) as [info|];
      cbn [flat_map app]; rewrite ?embedded_renderQueryInfo;
      (destruct (ChatInterface.data m) as [d|];
       [destruct (ResultsDisplay.ResultsDisplay (Some d) st)|]; reflexivity). }
  rewrite Hemb. destruct (ChatInterface.data m) as [d|].
  - cbn [ResultsDisplay.ResultsDisplay].
    destruct (Payload.envelope_keys d) as [|k ks] eqn:Hkeys; cbn.
    + split; [lia|]. split; [|reflexivity]. intros _. right. exists d.
      split; [reflexivity | now apply envelope_keys_allAbsent].
    + split; [lia|]. split; [discriminate|].
      intros [Hnone | [d' [Hd Habs]]]; [discriminate|].
      inversion Hd; subst d'. apply envelope_keys_allAbsent in Habs.
      rewrite Habs in Hkeys. discriminate.
  - cbn. split; [lia|]. split; [now left | reflexivity].
Qed.

(** X20.  The message a failed turn appends is shown as an error: the
    outer class ends in [error], the avatar is the bot icon with the
    error class, the text is the apology, and there is neither a query
    analysis block nor a result presenter.  A user message and an
    answer carry no error class. *)
Theorem failed_turn_is_shown_as_error (clock : ChatInterface.Clock)
  (st : ResultsDisplay.State) :
  messageClass (ChatInterface.errorMessage clock) = "message bot-message error"
  /\ getMessageIcon (ChatInterface.errorMessage clock)
     = Icon "Bot" 20 "error-icon"
  /\ markups (ChatMessage formatTime (ChatInterface.errorMessage clock) st)
     = [ChatInterface.apology]
  /\ byClass "query-info"
       (ChatMessage formatTime (ChatInterface.errorMessage clock) st) = []
  /\ embedded (ChatMessage formatTime (ChatInterface.errorMessage clock) st) = []
  /\ (forall text,
        messageClass (ChatInterface.userMessage clock text)
        = "message user-message ")
  /\ (forall r,
        messageClass (ChatInterface.botMessage clock r) = "message bot-message ").
Proof.
  split; [reflexivity|]. split; [reflexivity|].
  split; [|split; [|split; [|split; reflexivity]]].
  - unfold ChatMessage. cbn. now rewrite markups_jsx_string.
  - unfold ChatMessage. cbn.
    destruct (formatTime (ChatInterface.new_Date clock)); reflexivity.
  - unfold ChatMessage. cbn. now rewrite embedded_jsx_string.
Qed.

End MessageFacts.

(** The sample answer as a message: badges, details and presenter. *)
Example routed_message_details :
  map ChatMessage.textOf
    (ChatMessage.byClass "query-detail"
       (ChatMessage.renderQueryInfo Scenarios.routed))
  = ["Intent: count by_status"; "Entities: orders, status";
     "Sources: PostgreSQL"].
Proof. reflexivity. Qed.

(* ================================================================== *)
(** * Sessions                                                        *)
(* ================================================================== *)

Section SessionFacts.
Import ChatInterface Session.

Lemma turnsFrom_app_turn (expectUser : bool) (log : list Message)
  (u b : Message) :
  type u = user -> type b = bot ->
  turnsFrom expectUser log = true ->
  turnsFrom expectUser (log ++ [u; b]) = true.
Proof.
  intros Hu Hb. revert expectUser.
  induction log as [|m log IH]; intros expectUser Hlog.
  - simpl in Hlog. subst expectUser. simpl. now rewrite Hu, Hb.
  - simpl in *. destruct (type m), expectUser; try discriminate; now apply IH.
Qed.

Lemma turnsFrom_app (expectUser : bool) (log more : list Message) :
  turnsFrom expectUser log = true -> completeTurns more = true ->
  turnsFrom expectUser (log ++ more) = true.
Proof.
  revert expectUser. induction log as [|m log IH]; intros expectUser Hlog Hmore.
  - simpl in Hlog. now subst expectUser.
  - simpl in *. destruct (type m), expectUser; try discriminate; now apply IH.
Qed.

(** One round on an idle component adds whole turns only. *)
Lemma round_appends (st : State) (r : Round) :
  isLoading st = false ->
  exists added,
    messages (round st r) = messages st ++ added
    /\ completeTurns added = true
    /\ isLoading (round st r) = false.
Proof.
  intros Hidle. unfold round.
  remember (setInputValue (typedText r) st) as typed eqn:Htyped.
  assert (Hlog : messages typed = messages st) by now subst typed.
  assert (Hidle' : isLoading typed = false) by now subst typed.
  rewrite <- Hlog. clear Htyped Hlog.
  destruct (negb (JS.truthy_string (JS.trim (inputValue typed)))
            || isLoading typed) eqn:Hguard.
  - exists []. unfold handleSendMessage, handleSendMessage_submit.
    rewrite Hguard. cbn. rewrite app_nil_r. auto.
  - apply guard_accepts in Hguard. destruct Hguard as [Htext _].
    destruct (net r) as [resp | err].
    + rewrite (answered_call (before r) (after r) resp typed Htext Hidle').
      exists [userMessage (before r) (inputValue typed);
              botMessage (after r) (ChatService.payload resp)].
      cbn [fst messages isLoading]. repeat split.
    + rewrite (rejected_call (before r) (after r) err typed Htext Hidle').
      exists [userMessage (before r) (inputValue typed);
              errorMessage (after r)].
      cbn [messages isLoading]. repeat split.
Qed.

(** X21.  Starting from an idle component, any number of rounds of
    typing and sending, whatever is typed and however the network
    answers or fails, leaves the earlier log in place and appends
    complete turns only: a user message is always followed at once by
    the assistant message of the same turn.  The component is idle at
    the end. *)
Theorem session_appends_whole_turns (rounds : list Round) (st : State) :
  isLoading st = false ->
  exists added,
    messages (session rounds st) = messages st ++ added
    /\ completeTurns added = true
    /\ isLoading (session rounds st) = false.
Proof.
  unfold session. revert st.
  induction rounds as [|r rounds IH]; intros st Hidle.
  - exists []. simpl. now rewrite app_nil_r.
  - destruct (round_appends st r Hidle) as [first [Hfirst [Hturns Hflag]]].
    destruct (IH (round st r) Hflag) as [rest [Hrest [Hturns' Hflag']]].
    exists (first ++ rest). cbn [fold_left].
    rewrite Hrest, Hfirst, app_assoc.
    split; [reflexivity|]. split; [|exact Hflag'].
    now apply turnsFrom_app.
Qed.

Lemma session_appends_whole_turns_witness :
  exists added,
    messages
      (session
         [ {| typedText := "How many users do we have?";
              before := Samples.noon; after := Samples.later;
              net := inl Scenarios.answered |};
           {| typedText := "   ";
              before := Samples.later; after := Samples.later;
              net := inl Scenarios.answered |};
           {| typedText := "Count all products";
              before := Samples.later; after := Samples.later;
              net := inr Samples.timedOut |} ]
         Samples.fresh)
    = messages Samples.fresh ++ added
    /\ completeTurns added = true
    /\ isLoading
         (session
            [ {| typedText := "How many users do we have?";
                 before := Samples.noon; after := Samples.later;
                 net := inl Scenarios.answered |};
              {| typedText := "   ";
                 before := Samples.later; after := Samples.later;
                 net := inl Scenarios.answered |};
              {| typedText := "Count all products";
                 before := Samples.later; after := Samples.later;
                 net := inr Samples.timedOut |} ]
            Samples.fresh) = false.
Proof.
  apply (session_appends_whole_turns
           [ {| typedText := "How many users do we have?";
                before := Samples.noon; after := Samples.later;
                net := inl Scenarios.answered |};
             {| typedText := "   ";
                before := Samples.later; after := Samples.later;
                net := inl Scenarios.answered |};
             {| typedText := "Count all products";
                before := Samples.later; after := Samples.later;
                net := inr Samples.timedOut |} ]
           Samples.fresh).
  reflexivity.
Defined.

End SessionFacts.

(** The log of the sample session: greeting, question and answer,
    question and apology; the blank round added nothing. *)
Example sample_session_log :
  map ChatInterface.content
    (ChatInterface.messages
       (Session.session
          [ {| Session.typedText := "How many users do we have?";
               Session.before := Samples.noon; Session.after := Samples.later;
               Session.net := inl Scenarios.answered |};
            {| Session.typedText := "   ";
               Session.before := Samples.later; Session.after := Samples.later;
               Session.net := inl Scenarios.answered |};
            {| Session.typedText := "Count all products";
               Session.before := Samples.later; Session.after := Samples.later;
               Session.net := inr Samples.timedOut |} ]
          Samples.fresh))
  = [ ChatInterface.greeting;
      "How many users do we have?"; "I found 5 users in the database.";
      "Count all products"; ChatInterface.apology ].
Proof. reflexivity. Qed.

(* ================================================================== *)
(** * The timeline and the summary, block by block                    *)
(* ================================================================== *)

Section BlockFacts.
Import Payload ResultsDisplay Specification.
Context {host : Host}.

Lemma byClass_item_sample (sample : json) :
  byClass "timeline-item" (renderSample sample) = [].
Proof.
  unfold renderSample. cbn [byClass String.eqb Ascii.eqb Bool.eqb app].
  rewrite flat_map_app, byClass_jsx_string. reflexivity.
Qed.

Lemma byClass_item_samples (item : TimelineItem) :
  flat_map (byClass "timeline-item") (renderSamples item) = [].
Proof.
  unfold renderSamples. destruct (items item) as [[|x xs]|]; try reflexivity.
  cbn [byClass String.eqb Ascii.eqb Bool.eqb app flat_map].
  now rewrite (flat_map_map_none (byClass "timeline-item") renderSample _
                 byClass_item_sample).
Qed.

Lemma byClass_item_self (item : TimelineItem) :
  byClass "timeline-item" (renderTimelineItem item) = [renderTimelineItem item].
Proof.
  unfold renderTimelineItem.
  cbn [byClass String.eqb Ascii.eqb Bool.eqb app flat_map].
  now rewrite byClass_jsx_string, byClass_item_samples.
Qed.

Lemma byClass_count_samples (item : TimelineItem) :
  flat_map (byClass "timeline-count") (renderSamples item) = [].
Proof.
  unfold renderSamples. destruct (items item) as [[|x xs]|]; try reflexivity.
  cbn [byClass String.eqb Ascii.eqb Bool.eqb app flat_map].
  rewrite (flat_map_map_none (byClass "timeline-count") renderSample);
    [reflexivity|].
  intros sample. unfold renderSample.
  cbn [byClass String.eqb Ascii.eqb Bool.eqb app].
  rewrite flat_map_app, byClass_jsx_string. reflexivity.
Qed.

(** X22.  The timeline view shows one entry per bucket, in the order of
    the payload, and nothing at all when [timeline] is absent or empty.
    The number an entry shows is the bucket's [count] field, whatever
    the number of its items. *)
Theorem timeline_one_entry_per_bucket (d : ResultEnvelope) :
  flat_map (byClass "timeline-item") (renderTimeline d)
  = map renderTimelineItem
      (match timeline d with Some entries => entries | None => [] end)
  /\ (renderTimeline d = [] <-> nonEmpty (timeline d) = false)
  /\ (forall item,
        map textContent (byClass "timeline-count" (renderTimelineItem item))
        = [(Number_toString (count item) ++ " items")%string]).
Proof.
  split; [|split].
  - unfold renderTimeline. destruct (timeline d) as [[|t ts]|]; try reflexivity.
    remember (t :: ts) as entries.
    cbn [byClass String.eqb Ascii.eqb Bool.eqb app flat_map].
    rewrite (flat_map_map_self (byClass "timeline-item") renderTimelineItem _
               byClass_item_self).
    now rewrite !app_nil_r.
  - unfold renderTimeline, nonEmpty.
    destruct (timeline d) as [[|t ts]|]; split; intros H;
      try reflexivity; discriminate H.
  - intros item. unfold renderTimelineItem.
    cbn [byClass String.eqb Ascii.eqb Bool.eqb app flat_map].
    rewrite byClass_jsx_string, byClass_count_samples. reflexivity.
Qed.

Lemma byClass_source_bucket (b : Bucket.t) :
  byClass "aggregation-source" (renderBucket b) = [].
Proof.
  unfold renderBucket, jsx_atom.
  destruct (Bucket.key b) as [[|c s]|n]; reflexivity.
Qed.

Lemma byClass_source_metric (entry : string * metric) :
  byClass "aggregation-source" (renderMetric entry) = [].
Proof.
  destruct entry as [key [v | buckets]]; unfold renderMetric;
    cbn [byClass String.eqb Ascii.eqb Bool.eqb app flat_map];
    rewrite !byClass_jsx_string; [reflexivity|].
  cbn [byClass String.eqb Ascii.eqb Bool.eqb app flat_map].
  now rewrite (flat_map_map_none (byClass "aggregation-source") renderBucket _
                 byClass_source_bucket).
Qed.

Lemma byClass_source_self (entry : string * list (string * metric)) :
  byClass "aggregation-source" (renderAggregationSource entry)
  = [renderAggregationSource entry].
Proof.
  destruct entry as [source aggs]. unfold renderAggregationSource.
  cbn [byClass String.eqb Ascii.eqb Bool.eqb app flat_map].
  rewrite byClass_jsx_string.
  now rewrite (flat_map_map_none (byClass "aggregation-source") renderMetric _
                 byClass_source_metric).
Qed.

Lemma byClass_source_processed (d : ResultEnvelope) :
  flat_map (byClass "aggregation-source") (renderProcessed d) = [].
Proof.
  unfold renderProcessed. destruct (metadata d) as [m|]; [|reflexivity].
  destruct (lookup m "processing_time") as [[|b|n|s|xs|fs]|];
    try reflexivity.
  - destruct b; reflexivity.
  - destruct (JS.falsy_number n); reflexivity.
  - destruct (JS.truthy_string s); reflexivity.
Qed.

Lemma byClass_block_bucket (b : Bucket.t) :
  byClass "aggregations-summary" (renderBucket b) = [].
Proof.
  unfold renderBucket, jsx_atom.
  destruct (Bucket.key b) as [[|c s]|n]; reflexivity.
Qed.

Lemma byClass_block_metric (entry : string * metric) :
  byClass "aggregations-summary" (renderMetric entry) = [].
Proof.
  destruct entry as [key [v | buckets]]; unfold renderMetric;
    cbn [byClass String.eqb Ascii.eqb Bool.eqb app flat_map];
    rewrite !byClass_jsx_string; [reflexivity|].
  cbn [byClass String.eqb Ascii.eqb Bool.eqb app flat_map].
  now rewrite (flat_map_map_none (byClass "aggregations-summary") renderBucket _
                 byClass_block_bucket).
Qed.

Lemma byClass_block_source (entry : string * list (string * metric)) :
  byClass "aggregations-summary" (renderAggregationSource entry) = [].
Proof.
  destruct entry as [source aggs]. unfold renderAggregationSource.
  cbn [byClass String.eqb Ascii.eqb Bool.eqb app flat_map].
  rewrite byClass_jsx_string.
  now rewrite (flat_map_map_none (byClass "aggregations-summary") renderMetric _
                 byClass_block_metric).
Qed.

Lemma byClass_block_processed (d : ResultEnvelope) :
  flat_map (byClass "aggregations-summary") (renderProcessed d) = [].
Proof.
  unfold renderProcessed. destruct (metadata d) as [m|]; [|reflexivity].
  destruct (lookup m "processing_time") as [[|b|n|s|xs|fs]|];
    try reflexivity.
  - destruct b; reflexivity.
  - destruct (JS.falsy_number n); reflexivity.
  - destruct (JS.truthy_string s); reflexivity.
Qed.

(** X23.  The summary lists every source of [aggregations] once, in
    the order of the payload, under the Key Metrics heading; when
    [aggregations] is absent or has no source there is no such block
    and no source entry. *)
Theorem summary_lists_every_source (d : ResultEnvelope) :
  flat_map (byClass "aggregation-source") (renderSummary d)
  = map renderAggregationSource
      (match aggregations d with Some aggs => aggs | None => [] end)
  /\ length (flat_map (byClass "aggregations-summary") (renderSummary d))
     = (if nonEmpty (aggregations d) then 1 else 0).
Proof.
  split.
  - unfold renderSummary.
    cbn [byClass String.eqb Ascii.eqb Bool.eqb app flat_map].
    rewrite !flat_map_app, byClass_source_processed.
    assert (Hstats :
              flat_map (byClass "aggregation-source")
                match total_results d with
                | Some n =>
                    [Elem "div" "stat"
                       [Icon "Hash" 16;
                        Elem "span" "" [Text (Number_toString n); Text " records"]]]
                | None => []
                end = []) by (destruct (total_results d); reflexivity).
    assert (Hsources :
              flat_map (byClass "aggregation-source")
                match sources d with
                | Some srcs =>
                    [Elem "div" "stat"
                       [Icon "Database" 16;
                        Elem "span" "" (jsx_string (JS.join ", " srcs))]]
                | None => []
                end = []).
    { destruct (sources d) as [srcs|]; [|reflexivity].
      cbn [byClass String.eqb Ascii.eqb Bool.eqb app flat_map].
      now rewrite byClass_jsx_string. }
    assert (Htext :
              flat_map (byClass "aggregation-source")
                match summary d with
                | Some s =>
                    jsx_when (JS.truthy_string s)
                      [Elem "div" "summary-text" [Elem "p" "" [Text s]]]
                | None => []
                end = []).
    { destruct (summary d) as [s|]; [destruct (JS.truthy_string s)|];
        reflexivity. }
    rewrite Hstats, Hsources, Htext. cbn [app].
    unfold renderAggregations.
    destruct (aggregations d) as [[|a aggs]|]; try reflexivity.
    remember (a :: aggs) as all.
    assert (Hlen : (0 <? length all)%nat = true) by (subst all; reflexivity).
    rewrite Hlen.
    cbn [jsx_when byClass String.eqb Ascii.eqb Bool.eqb app flat_map].
    rewrite (flat_map_map_self (byClass "aggregation-source")
               renderAggregationSource _ byClass_source_self).
    now rewrite !app_nil_r.
  - unfold renderSummary.
    cbn [byClass String.eqb Ascii.eqb Bool.eqb app flat_map].
    rewrite !flat_map_app, byClass_block_processed.
    assert (Hstats :
              flat_map (byClass "aggregations-summary")
                match total_results d with
                | Some n =>
                    [Elem "div" "stat"
                       [Icon "Hash" 16;
                        Elem "span" "" [Text (Number_toString n); Text " records"]]]
                | None => []
                end = []) by (destruct (total_results d); reflexivity).
    assert (Hsources :
              flat_map (byClass "aggregations-summary")
                match sources d with
                | Some srcs =>
                    [Elem "div" "stat"
                       [Icon "Database" 16;
                        Elem "span" "" (jsx_string (JS.join ", " srcs))]]
                | None => []
                end = []).
    { destruct (sources d) as [srcs|]; [|reflexivity].
      cbn [byClass String.eqb Ascii.eqb Bool.eqb app flat_map].
      now rewrite byClass_jsx_string. }
    assert (Htext :
              flat_map (byClass "aggregations-summary")
                match summary d with
                | Some s =>
                    jsx_when (JS.truthy_string s)
                      [Elem "div" "summary-text" [Elem "p" "" [Text s]]]
                | None => []
                end = []).
    { destruct (summary d) as [s|]; [destruct (JS.truthy_string s)|];
        reflexivity. }
    rewrite Hstats, Hsources, Htext. cbn [app].
    unfold renderAggregations, nonEmpty.
    destruct (aggregations d) as [[|a aggs]|]; try reflexivity.
    remember (a :: aggs) as all.
    assert (Hlen : (0 <? length all)%nat = true) by (subst all; reflexivity).
    rewrite Hlen.
    cbn [jsx_when flat_map byClass String.eqb Ascii.eqb Bool.eqb app].
    rewrite (flat_map_map_none (byClass "aggregations-summary")
               renderAggregationSource _ byClass_block_source).
    reflexivity.
Qed.

End BlockFacts.

(* ================================================================== *)
(** * Selecting a view mode                                           *)
(* ================================================================== *)

Section ClickFacts.
Import Payload ResultsDisplay Specification Interaction.
Context {host : Host}.

Lemma Handler_eqb_eq (a b : Handler) : Handler_eqb a b = true <-> a = b.
Proof.
  destruct a as [m | x], b as [m' | y]; simpl.
  - rewrite String.eqb_eq. split; congruence.
  - split; discriminate.
  - split; discriminate.
  - rewrite Bool.eqb_true_iff. split; congruence.
Qed.

Lemma on_offer (h : Handler) (l : list Handler) :
  existsb (Handler_eqb h) l = true <-> In h l.
Proof.
  rewrite existsb_exists. split.
  - intros [x [Hin Heq]]. apply Handler_eqb_eq in Heq. now subst.
  - intros Hin. exists h. split; [exact Hin | now apply Handler_eqb_eq].
Qed.

(** A click on a rendered button runs its handler. *)
Lemma click_offered (data : option ResultEnvelope) (h : Handler) (st : State) :
  In h (offered data st) -> click data h st = run h st.
Proof.
  intros Hin. unfold click. apply on_offer in Hin. now rewrite Hin.
Qed.

(** Without such a button nothing happens. *)
Lemma click_missing (data : option ResultEnvelope) (h : Handler) (st : State) :
  ~ In h (offered data st) -> click data h st = st.
Proof.
  intros Hout. unfold click.
  destruct (existsb (Handler_eqb h) (offered data st)) eqn:Hin; [|reflexivity].
  apply on_offer in Hin. contradiction.
Qed.

(** An envelope without fields renders no button. *)
Lemma offered_nothing (d : ResultEnvelope) (st : State) :
  envelope_keys d = [] -> offered (Some d) st = [].
Proof.
  intros Hkeys. unfold offered, ResultsDisplay.ResultsDisplay.
  now rewrite Hkeys.
Qed.

(** A mode button on offer is the button of an eligible mode. *)
Lemma offered_mode_eligible (d : ResultEnvelope) (st : State) (mode : string) :
  In (OnSetViewMode mode) (offered (Some d) st) ->
  envelope_keys d <> [] /\ eligible d mode = true /\ mode <> "raw".
Proof.
  intros Hin. destruct (envelope_keys d) as [|k ks] eqn:Hkeys.
  - rewrite (offered_nothing d st Hkeys) in Hin. contradiction.
  - assert (Hne : envelope_keys d <> []) by (rewrite Hkeys; discriminate).
    rewrite <- Hkeys. split; [exact Hne|].
    now apply (mode_buttons_follow_eligibility d st Hne).
Qed.

(** C7.  The view mode is set through the mode buttons only, and a
    button is rendered only for an eligible mode (Table asks for a
    non-empty [results], Timeline for a non-empty [timeline], Summary
    is always there on an envelope that renders).  So for every
    envelope, state and mode: selecting an ineligible mode leaves the
    presentation state as it is; if selecting a mode changes the view
    mode at all, the mode was eligible and is the new view mode; an
    eligible view mode of a rendered envelope is honoured; [showRawData]
    is never touched by a mode selection.  The raw view is served by
    the raw toggle, which is always on offer on a rendered envelope and
    negates [showRawData] whatever the state, leaving [viewMode] alone.
    Every state the component can reach has an eligible view mode. *)
Theorem only_eligible_modes_are_selected (d : ResultEnvelope) (st : State)
  (mode : string) :
  (eligible d mode = false -> selectMode (Some d) mode st = st)
  /\ (viewMode (selectMode (Some d) mode st) <> viewMode st ->
      eligible d mode = true /\ viewMode (selectMode (Some d) mode st) = mode)
  /\ showRawData (selectMode (Some d) mode st) = showRawData st
  /\ (envelope_keys d <> [] -> eligible d mode = true -> mode <> "raw" ->
      selectMode (Some d) mode st = setViewMode mode st)
  /\ (envelope_keys d <> [] -> clickRaw (Some d) st = toggleRaw st)
  /\ showRawData (toggleRaw st) = negb (showRawData st)
  /\ viewMode (toggleRaw st) = viewMode st
  /\ (reachable (Some d) st ->
      eligible d (viewMode st) = true /\ viewMode st <> "raw").
Proof.
  split; [|split; [|split; [|split; [|split; [|split; [|split]]]]]].
  - intros Hel. apply click_missing. intros Hin.
    apply offered_mode_eligible in Hin. destruct Hin as [_ [Hyes _]].
    congruence.
  - unfold selectMode, click.
    destruct (existsb (Handler_eqb (OnSetViewMode mode)) (offered (Some d) st))
      eqn:Hin.
    + intros _. apply on_offer, offered_mode_eligible in Hin.
      split; [tauto | reflexivity].
    + intros Hchanged. now contradiction Hchanged.
  - unfold selectMode, click.
    destruct (existsb (Handler_eqb (OnSetViewMode mode)) (offered (Some d) st));
      reflexivity.
  - intros Hkeys Hel Hraw. unfold selectMode.
    rewrite click_offered; [reflexivity|].
    apply (mode_buttons_follow_eligibility d st Hkeys). now split.
  - intros Hkeys. unfold clickRaw.
    rewrite click_offered; [reflexivity|].
    now apply (mode_buttons_follow_eligibility d st Hkeys).
  - reflexivity.
  - reflexivity.
  - intros Hreach. induction Hreach as [|st h Hreach IH Hin].
    + split; [reflexivity | discriminate].
    + destruct h as [m | b].
      * apply offered_mode_eligible in Hin. cbn [run setViewMode viewMode].
        tauto.
      * exact IH.
Qed.

End ClickFacts.

(** On [{ "summary": "Found 5 users" }] there is no Table button: the
    selection does nothing and the summary stays.  On the sample
    envelope with rows the same selection shows the table. *)
Example select_table_without_rows :
  Specification.eligible Samples.summaryOnly "table" = false
  /\ Interaction.selectMode (host := Reference.host)
       (Some Samples.summaryOnly) "table" ResultsDisplay.initialState
     = ResultsDisplay.initialState
  /\ Interaction.selectMode (host := Reference.host)
       (Some Samples.users) "table" ResultsDisplay.initialState
     = ResultsDisplay.setViewMode "table" ResultsDisplay.initialState
  /\ Interaction.clickRaw (host := Reference.host)
       (Some Samples.summaryOnly) ResultsDisplay.initialState
     = {| ResultsDisplay.viewMode := "summary";
          ResultsDisplay.showRawData := true |}.
Proof. vm_compute. repeat split. Qed.
